(** * gpt-extract: the reply classifier, the result store and the run loop

    A shallow embedding of [gpt-extract.py].  Python [str] values are Rocq
    [string]s (characters are code points below 256), Python [int]s are [Z],
    the [results] list is a [list Result], and the effects of the script
    (requests to the chat backend, [time.sleep], rewriting the output file)
    are recorded in an event trace.

    What the script takes from outside is a parameter of the model: the chat
    session ([chat.ask], which may raise [TimeoutException]) and
    [json.loads].  Document ids are integers, as the line index and the array
    index are; the schema is the text the f-string of the prompt renders for
    it.  The [while True] loop of [scrape_via_prompt] runs on fuel, and
    [run_benign] shows that the fuel given never runs out. *)

From Stdlib Require Import String Ascii List ZArith Lia Bool Arith.
Import ListNotations.

Local Open Scope string_scope.
Local Open Scope nat_scope.

(** ** The Python string operations the script uses *)

Module PyStr.

Definition code (c : ascii) : nat := nat_of_ascii c.

(** [str.isspace] on one character, for code points below 256. *)
Definition isspace (c : ascii) : bool :=
  let n := code c in
  ((9 <=? n) && (n <=? 13)) || ((28 <=? n) && (n <=? 32))
  || (n =? 133) || (n =? 160).

(** [str.lower] on one character, for code points below 256: A-Z and the
    Latin-1 capitals (all of 0xC0-0xDE but the multiplication sign). *)
Definition lower_char (c : ascii) : ascii :=
  let n := code c in
  if ((65 <=? n) && (n <=? 90))
     || ((192 <=? n) && (n <=? 222) && negb (n =? 215))
  then ascii_of_nat (n + 32) else c.

Fixpoint lower (s : string) : string :=
  match s with
  | EmptyString => EmptyString
  | String c s' => String (lower_char c) (lower s')
  end.

Fixpoint lstrip (s : string) : string :=
  match s with
  | EmptyString => EmptyString
  | String c s' => if isspace c then lstrip s' else s
  end.

Fixpoint rstrip (s : string) : string :=
  match s with
  | EmptyString => EmptyString
  | String c s' =>
      match rstrip s' with
      | EmptyString => if isspace c then EmptyString else String c EmptyString
      | r => String c r
      end
  end.

(** [s.strip()] *)
Definition strip (s : string) : string := rstrip (lstrip s).

(** [sub in s] *)
Fixpoint isin (sub s : string) : bool :=
  prefix sub s
  || match s with
     | EmptyString => false
     | String _ s' => isin sub s'
     end.

(** [re.sub("[...]+", rep, s)] for a character class [cls]: every maximal
    run of characters of the class becomes the one character [rep]. *)
Fixpoint re_sub_runs (cls : ascii -> bool) (rep : ascii) (s : string) : string :=
  match s with
  | EmptyString => EmptyString
  | String c s' =>
      if cls c then
        match s' with
        | EmptyString => String rep EmptyString
        | String c' _ =>
            if cls c' then re_sub_runs cls rep s'
            else String rep (re_sub_runs cls rep s')
        end
      else String c (re_sub_runs cls rep s')
  end.

Fixpoint take (n : nat) (s : string) : string :=
  match n, s with
  | S n', String c s' => String c (take n' s')
  | _, _ => EmptyString
  end.

Fixpoint drop (n : nat) (s : string) : string :=
  match n, s with
  | S n', String _ s' => drop n' s'
  | _, _ => s
  end.

(** [s[:n]] for [n >= 0] *)
Definition slice_to (n : nat) (s : string) : string := take n s.

(** [s[-n:]] for [n > 0]: the start index [len(s) - n] is clipped at 0. *)
Definition slice_last (n : nat) (s : string) : string :=
  drop (String.length s - n) s.

(** [s.split(sep)] for a non-empty [sep]: the scan goes left to right, and
    [skip] counts the characters of a matched separator still to pass. *)
Fixpoint split_go (sep : string) (skip : nat) (s : string) : list string :=
  match s with
  | EmptyString => [EmptyString]
  | String c s' =>
      match skip with
      | S k => split_go sep k s'
      | O =>
          if prefix sep s
          then EmptyString :: split_go sep (String.length sep - 1) s'
          else match split_go sep 0 s' with
               | p :: ps => String c p :: ps
               | [] => [String c EmptyString]
               end
      end
  end.

Definition split (sep s : string) : list string := split_go sep 0 s.

(** [s.find(sub)]: the index of the first occurrence, if any. *)
Fixpoint find (sub s : string) : option nat :=
  if prefix sub s then Some 0
  else match s with
       | EmptyString => None
       | String _ s' => option_map S (find sub s')
       end.

(** [c * n] for a one-character string [c] *)
Fixpoint replicate (n : nat) (c : ascii) : string :=
  match n with
  | O => EmptyString
  | S n' => String c (replicate n' c)
  end.

End PyStr.

(** ** Constants *)

Definition nl : string := String "010"%char EmptyString.
Definition dquote : string := String "034"%char EmptyString.
Definition fence : string := "```".

(** max chars to use in prompt *)
Definition DOC_MAX_LENGTH : nat := 3000.

Definition is_newline (c : ascii) : bool := (PyStr.code c =? 10).
Definition is_tab_or_space (c : ascii) : bool :=
  (PyStr.code c =? 9) || (PyStr.code c =? 32).

(** The [cleaned] local of [clean_document]. *)
Definition cleaned_text (page_text : string) : string :=
  PyStr.strip
    (PyStr.re_sub_runs is_tab_or_space " "%char
       (PyStr.re_sub_runs is_newline "010"%char page_text)).

Definition clean_document (page_text : string) : string :=
  let cleaned := cleaned_text page_text in
  if String.length cleaned <? DOC_MAX_LENGTH then cleaned
  else
    let front := PyStr.slice_to (DOC_MAX_LENGTH - 500) cleaned in
    let end_ := PyStr.slice_last 500 cleaned in
    front ++ " " ++ end_.

(** ** Documents, results, exceptions and effects *)

(** An element of [documents]: [{"id": ..., "text": ...}]. *)
Record Document := mkDocument { doc_id : Z; doc_text : string }.

(** The three exceptions the script can end with. *)
Inductive exn :=
| BadStateException (msg : string)
| TimeoutException
| ValueError (msg : string).

(** How a computation ends: with a value, with an exception, or (for the
    model only) with the fuel of a loop used up. *)
Inductive res (A : Type) :=
| Ret (a : A)
| Raise (e : exn)
| OutOfFuel.
Arguments Ret {A} a.
Arguments Raise {A} e.
Arguments OutOfFuel {A}.

Definition degraded_marker : string := "unusable response produced by chatgpt".
Definition bad_input : string :=
  "it is not possible to generate a json representation " ++
  "of the provided text".
Definition rate_limited : string := "HTTP Error 429: Too many requests".

Definition build_prompt (page_text schema : string) : string :=
  "```" ++ clean_document page_text ++ "```" ++ nl ++ nl ++
  "For the given text, can you provide a JSON representation that strictly follows this schema:"
  ++ nl ++ nl ++ "```" ++ schema ++ "```".

(** The tests of the reply classifier, in the order the loop makes them. *)
Definition is_degraded (reply : string) : bool :=
  PyStr.isin degraded_marker (PyStr.lower reply).
Definition is_refusal (reply : string) : bool :=
  PyStr.isin bad_input (PyStr.lower reply).
Definition is_rate_limited (reply : string) : bool :=
  (PyStr.strip reply =? rate_limited)%string.
Definition has_closing_brace (reply : string) : bool :=
  PyStr.isin "}" reply.

(** A reply none of the four tests catches. *)
Definition is_clean (reply : string) : bool :=
  negb (is_degraded reply) && negb (is_refusal reply)
  && negb (is_rate_limited reply) && has_closing_brace reply.

(** The substring between the first and the second fence of a reply, when
    it has two. *)
Definition between_fences (reply : string) : option string :=
  match PyStr.find fence reply with
  | None => None
  | Some i =>
      let rest := PyStr.drop (i + String.length fence) reply in
      match PyStr.find fence rest with
      | None => None
      | Some j => Some (PyStr.take j rest)
      end
  end.

(** The documents the loop of [run] passes over: blank ones, and the ones
    before the resume cursor. *)
Definition is_skipped (continue_at : option Z) (page_data : Document) : bool :=
  (doc_text page_data =? "")%string
  || match continue_at with
     | Some c => (doc_id page_data <? c)%Z
     | None => false
     end.

(** The ways a computation of the script ends when nothing is wrong with
    the model: a value, or one of the two exceptions the session can cause. *)
Definition benign {A : Type} (r : res A) : Prop :=
  match r with
  | Ret _ => True
  | Raise (BadStateException _) => True
  | Raise TimeoutException => True
  | Raise (ValueError _) => False
  | OutOfFuel => False
  end.

(** [max(l)] on integers; [None] is Python's [ValueError] on an empty list. *)
Definition py_max (l : list Z) : option Z :=
  match l with
  | [] => None
  | x :: l' => Some (fold_left Z.max l' x)
  end.

(** A backend that answers from a script, one reply per request, and times
    out once the script is used up. *)
Definition scripted_ask (script : list string) (_ : string)
  : option string * list string :=
  match script with
  | [] => (None, [])
  | r :: script' => (Some r, script')
  end.

Section Extraction.

(** The chat session: [ask chat prompt] is [chat.ask(prompt)], returning
    the reply ([None] when the wrapper raises [TimeoutException]) and the
    session afterwards. *)
Variable Chat : Type.
Variable ask : Chat -> string -> option string * Chat.

(** [json.loads]; [None] stands for any exception it raises. *)
Variable JSON : Type.
Variable json_loads : string -> option JSON.

Record Result := mkResult {
  id : Z;
  text : string;
  prompt : string;
  response : option string;
  data : option JSON
}.

Inductive event :=
| EvInput                              (* input("Login then press enter...") *)
| EvReload                             (* chat.page.reload() *)
| EvAsk (current_prompt : string)      (* chat.ask(current_prompt) *)
| EvSleep (seconds : Z)                (* time.sleep(seconds) *)
| EvSave (results : list Result).      (* outfile rewritten with results *)

(** Computations: the session is threaded through, the events are
    collected in order, and an exception ends the computation. *)
Definition M (A : Type) : Type := Chat -> res A * Chat * list event.

Definition ret {A} (a : A) : M A := fun chat => (Ret a, chat, []).
Definition raise {A} (e : exn) : M A := fun chat => (Raise e, chat, []).
Definition out_of_fuel {A} : M A := fun chat => (OutOfFuel, chat, []).

Definition bind {A B} (m : M A) (k : A -> M B) : M B :=
  fun chat =>
    match m chat with
    | (Ret a, chat', tr) =>
        match k a chat' with
        | (r, chat'', tr') => (r, chat'', (tr ++ tr')%list)
        end
    | (Raise e, chat', tr) => (Raise e, chat', tr)
    | (OutOfFuel, chat', tr) => (OutOfFuel, chat', tr)
    end.

Notation "x <- m ;; k" := (bind m (fun x => k))
  (at level 61, m at next level, right associativity).
Notation "m ;; k" := (bind m (fun _ => k))
  (at level 61, right associativity).

Definition emit (e : event) : M unit := fun chat => (Ret tt, chat, [e]).
Definition sleep (seconds : Z) : M unit := emit (EvSleep seconds).

Definition chat_ask (current_prompt : string) : M string :=
  fun chat =>
    match ask chat current_prompt with
    | (Some reply, chat') => (Ret reply, chat', [EvAsk current_prompt])
    | (None, chat') => (Raise TimeoutException, chat', [EvAsk current_prompt])
    end.

(** The [while True] loop of [scrape_via_prompt]; the value is the final
    [response] ([None] after "Bad input! Skipping this text"). *)
Fixpoint scrape_loop (fuel : nat) (current_prompt : string) (waited : Z)
  : M (option string) :=
  match fuel with
  | O => out_of_fuel
  | S fuel' =>
      response <- chat_ask current_prompt ;;
      let waited := (waited + 1)%Z in
      if (5 <? waited)%Z then
        raise (BadStateException "Exceeded 5 wait states, starting over.")
      else if PyStr.isin degraded_marker (PyStr.lower response) then
        let wait_seconds := (120 * waited)%Z in
        sleep wait_seconds ;;
        scrape_loop fuel' current_prompt waited
      else if PyStr.isin bad_input (PyStr.lower response) then
        ret None
      else if (PyStr.strip response =? rate_limited)%string then
        sleep (60 * 60)%Z ;;
        raise (BadStateException "Hour is over, restart!")
      else if negb (PyStr.isin "}" response) then
        raise (BadStateException "Not returning full JSON.")
      else ret (Some response)
  end.

(** Six iterations are all the loop can make: the sixth one raises. *)
Definition scrape_fuel : nat := 6.

Definition scrape_via_prompt (page_text schema : string)
  : M (string * option string) :=
  let prompt := build_prompt page_text schema in
  response <- scrape_loop scrape_fuel prompt 0%Z ;;
  ret (prompt, response).

Fixpoint upsert_result (results : list Result) (result : Result)
  : list Result :=
  let pk := id result in
  match results with
  | [] => [result]
  | r_result :: rest =>
      if negb (id r_result =? pk)%Z
      then r_result :: upsert_result rest result
      else result :: rest
  end.

(** [json.loads(response.split("```")[1])] under [try]/[except Exception]:
    a [None] response, a missing second piece and a parse error all leave
    [data = None]. *)
Definition parse_data (response : option string) : option JSON :=
  match response with
  | None => None
  | Some reply =>
      match nth_error (PyStr.split fence reply) 1 with
      | None => None
      | Some piece => json_loads piece
      end
  end.

(** The variables the [for] loop of [run] updates. *)
Record LoopState := mkLoop {
  first_scrape : bool;
  results : list Result
}.

(** One iteration of the [for] loop of [run]. *)
Definition process_document (schema : string) (continue_at : option Z)
    (st : LoopState) (page_data : Document) : M LoopState :=
  let pk := doc_id page_data in
  let page_text := doc_text page_data in
  if (page_text =? "")%string then ret st
  else if match continue_at with
          | Some c => (pk <? c)%Z
          | None => false
          end
  then ret st
  else
    st1 <- (if negb (first_scrape st)
            then sleep 60%Z ;; ret (mkLoop false (results st))
            else ret st) ;;
    pr <- scrape_via_prompt page_text schema ;;
    let data := parse_data (snd pr) in
    let result := mkResult pk page_text (fst pr) (snd pr) data in
    let results' := upsert_result (results st1) result in
    emit (EvSave results') ;;
    ret (mkLoop (first_scrape st1) results').

Fixpoint run_documents (schema : string) (continue_at : option Z)
    (st : LoopState) (documents : list Document) : M LoopState :=
  match documents with
  | [] => ret st
  | page_data :: rest =>
      st' <- process_document schema continue_at st page_data ;;
      run_documents schema continue_at st' rest
  end.

(** [stored] is what [outfile] holds when the run starts ([[]] when the
    file does not exist), the first value of [results]; the value of the
    computation is the final [results].  [continue_at] is a cursor of the
    type of the ids, as the loop compares it with them; the command line
    hands over the text of [--continue-at] instead, a call the model does
    not cover: the properties below are about [continue_at = None] and
    about [continue_last]. *)
Definition run (documents : list Document) (schema : string)
    (stored : list Result) (headless : bool) (continue_at : option Z)
    (continue_last : bool) : M (list Result) :=
  (if negb headless then emit EvInput else sleep 5%Z) ;;
  emit EvReload ;;
  let already_scraped := nodup Z.eq_dec (map id stored) in
  continue_at <- (if continue_last
                  then match py_max already_scraped with
                       | Some m => ret (Some (m + 1)%Z)
                       | None => raise (ValueError "max() arg is an empty sequence")
                       end
                  else ret continue_at) ;;
  st <- run_documents schema continue_at (mkLoop true stored) documents ;;
  ret (results st).

(** ** Vocabulary for the statements *)

(** The session answers the next requests for [current_prompt] with
    [replies], in this order. *)
Fixpoint answers (chat : Chat) (current_prompt : string)
    (replies : list string) : Prop :=
  match replies with
  | [] => True
  | reply :: replies' =>
      fst (ask chat current_prompt) = Some reply
      /\ answers (snd (ask chat current_prompt)) current_prompt replies'
  end.

(** The session after [n] requests for [current_prompt]. *)
Fixpoint session_after (chat : Chat) (current_prompt : string) (n : nat)
  : Chat :=
  match n with
  | O => chat
  | S n' => session_after (snd (ask chat current_prompt)) current_prompt n'
  end.

(** The events of [n] degraded replies in a row, the counter being at
    [waited] before them: each request is followed by a sleep of 120
    seconds times the number of replies seen so far. *)
Fixpoint backoff (current_prompt : string) (waited : Z) (n : nat)
  : list event :=
  match n with
  | O => []
  | S n' =>
      EvAsk current_prompt :: EvSleep (120 * (waited + 1))%Z
        :: backoff current_prompt (waited + 1)%Z n'
  end.

(** The end of [run] after its loop: the final [results] are returned. *)
Definition finish_run (x : res LoopState * Chat * list event)
  : res (list Result) * Chat * list event :=
  match x with
  | (Ret st, chat, tr) => (Ret (results st), chat, tr)
  | (Raise e, chat, tr) => (Raise e, chat, tr)
  | (OutOfFuel, chat, tr) => (OutOfFuel, chat, tr)
  end.

(** An outcome with the events [tr] put before its own. *)
Definition after_events {A} (tr : list event)
    (x : res A * Chat * list event) : res A * Chat * list event :=
  match x with
  | (r, chat, tr') => (r, chat, (tr ++ tr')%list)
  end.

(** The pacing sleep an iteration of the loop of [run] starts with. *)
Definition pacing (st : LoopState) : list event :=
  if negb (first_scrape st) then [EvSleep 60%Z] else [].

(** The start of every run: the login prompt or the 5-second sleep, and
    the page reload. *)
Definition prelude (headless : bool) : list event :=
  [if negb headless then EvInput else EvSleep 5%Z; EvReload].

(** The result the loop records for a document, given what
    [scrape_via_prompt] returned. *)
Definition recorded (page_data : Document) (pr : string * option string)
  : Result :=
  mkResult (doc_id page_data) (doc_text page_data) (fst pr) (snd pr)
    (parse_data (snd pr)).

(** What the loop makes of a reply that is not degraded, once the request
    for it is made. *)
Definition verdict (current_prompt reply : string) (chat : Chat)
  : res (string * option string) * Chat * list event :=
  if is_refusal reply then (Ret (current_prompt, None), chat, [])
  else if is_rate_limited reply then
    (Raise (BadStateException "Hour is over, restart!"), chat,
     [EvSleep 3600%Z])
  else if has_closing_brace reply then
    (Ret (current_prompt, Some reply), chat, [])
  else (Raise (BadStateException "Not returning full JSON."), chat, []).

(** The invariant of the store: at most one result per id. *)
Definition unique_ids (store : list Result) : Prop := NoDup (map id store).

End Extraction.

Arguments mkResult {JSON} id text prompt response data.
Arguments id {JSON} r.
Arguments text {JSON} r.
Arguments prompt {JSON} r.
Arguments response {JSON} r.
Arguments data {JSON} r.
Arguments upsert_result {JSON} results result.
Arguments EvInput {JSON}.
Arguments EvReload {JSON}.
Arguments EvAsk {JSON} current_prompt.
Arguments EvSleep {JSON} seconds.
Arguments EvSave {JSON} results.
Arguments mkLoop {JSON} first_scrape results.
Arguments first_scrape {JSON} l.
Arguments results {JSON} l.
Arguments unique_ids {JSON} store.
Arguments ret {Chat JSON A} a _.
Arguments raise {Chat JSON A} e _.
Arguments out_of_fuel {Chat JSON A} _.
Arguments bind {Chat JSON A B} m k _.
Arguments emit {Chat JSON} e _.
Arguments sleep {Chat JSON} seconds _.
Arguments chat_ask {Chat} ask {JSON} current_prompt _.
Arguments scrape_loop {Chat} ask {JSON} fuel current_prompt waited _.
Arguments scrape_via_prompt {Chat} ask {JSON} page_text schema _.
Arguments parse_data {JSON} json_loads response.
Arguments process_document {Chat} ask {JSON} json_loads schema continue_at st page_data _.
Arguments run_documents {Chat} ask {JSON} json_loads schema continue_at st documents _.
Arguments run {Chat} ask {JSON} json_loads documents schema stored headless continue_at continue_last _.
Arguments answers {Chat} ask chat current_prompt replies.
Arguments session_after {Chat} ask chat current_prompt n.
Arguments backoff {JSON} current_prompt waited n.
Arguments after_events {Chat JSON A} tr x.
Arguments finish_run {Chat JSON} x.
Arguments pacing {JSON} st.
Arguments recorded {JSON} json_loads page_data pr.
Arguments verdict {Chat JSON} current_prompt reply chat.
Arguments prelude {JSON} headless.

Definition sample_result (k : Z) (reply : string) : Result unit :=
  mkResult k "doc" "p" (Some reply) None.

(** A stand-in for [json.loads] that knows one document. *)
Definition sample_json_loads (s : string) : option (list (string * Z)) :=
  if (s =? "{" ++ dquote ++ "a" ++ dquote ++ ":1}")%string
  then Some [("a", 1%Z)] else None.

Definition two_documents : list Document :=
  [mkDocument 0 "first"; mkDocument 1 "second"].

(** A store with the ids 0, 2 and 5, and documents on both sides of the
    cursor it gives. *)
Definition stored_025 {JSON : Type} : list (Result JSON) :=
  map (fun k => mkResult k "doc" "p" None None) [0%Z; 2%Z; 5%Z].

Definition resume_documents : list Document :=
  [mkDocument 3 "three"; mkDocument 6 "six"].

(** Sample replies of the four kinds. *)
Definition degraded_reply : string :=
  "Error: Unusable response produced by ChatGPT, maybe its unavailable.".
Definition refusal_reply : string :=
  "Sorry. It is not possible to generate a JSON representation of the provided text.".
Definition fenced_reply : string :=
  "prefix ```{" ++ dquote ++ "a" ++ dquote ++ ":1}``` suffix".
Definition cut_reply : string := "```{" ++ dquote ++ "a" ++ dquote ++ ": [1, 2".
Definition single_fence_reply : string :=
  "```{" ++ dquote ++ "a" ++ dquote ++ ":1}".


(** ** Reading the input file: parse_input_documents *)

(** What [json.load] returns for the input file.  A float is kept as its
    text; an object is the list of its keys and values, looked up by key. *)
#[warnings="-register-all"]
Inductive json :=
| JNull
| JBool (b : bool)
| JInt (z : Z)
| JFloat (repr : string)
| JStr (s : string)
| JArr (items : list json)
| JObj (fields : list (string * json)).

(** The exceptions [parse_input_documents] can end with. *)
Inductive load_exn :=
| AssertionError (msg : string)
| IndexError
| KeyError (key : string)
| TypeError
| JSONDecodeError.

Inductive loaded (A : Type) :=
| Loaded (a : A)
| LoadFails (e : load_exn).
Arguments Loaded {A} a.
Arguments LoadFails {A} e.

(** An element of [documents] as the loader builds it: in JSON mode the id
    and the text are whatever values the input holds under the two keys. *)
Record RawDocument := mkRaw { raw_id : json; raw_text : json }.

Inductive InputType := txt | json_input.

(** The arguments the loader reads: [--input-type], [--keydoc], [--keyid]. *)
Record Args := mkArgs {
  input_type : option InputType;
  keydoc : option string;
  keyid : option string
}.

(** The truth value of an optional string argument: [None] and the empty
    string are false. *)
Definition truthy (o : option string) : bool :=
  match o with
  | Some s => negb (s =? "")%string
  | None => false
  end.

Definition arg_text (o : option string) : string :=
  match o with
  | Some s => s
  | None => ""
  end.

(** [d.get(key)] on the fields of an object. *)
Fixpoint dict_get (key : string) (fields : list (string * json))
  : option json :=
  match fields with
  | [] => None
  | (k, v) :: fields' =>
      if (k =? key)%string then Some v else dict_get key fields'
  end.

(** [doc_data[key]] for a string key: [KeyError] on an object without the
    key, [TypeError] on any value that is not an object. *)
Definition subscript (doc_data : json) (key : string) : loaded json :=
  match doc_data with
  | JObj fields =>
      match dict_get key fields with
      | Some v => Loaded v
      | None => LoadFails (KeyError key)
      end
  | _ => LoadFails TypeError
  end.

(** [f.readlines()] on the text of the file (as text mode gives it, its
    line ends being newline characters): the lines keep their newline. *)
Fixpoint readlines (s : string) : list string :=
  match s with
  | EmptyString => []
  | String c s' =>
      if is_newline c then String c EmptyString :: readlines s'
      else match readlines s' with
           | [] => [String c EmptyString]
           | line :: lines => String c line :: lines
           end
  end.

Fixpoint enumerate_from {A : Type} (i : Z) (l : list A) : list (Z * A) :=
  match l with
  | [] => []
  | x :: l' => (i, x) :: enumerate_from (i + 1)%Z l'
  end.

(** [enumerate(l)] *)
Definition enumerate {A : Type} (l : list A) : list (Z * A) :=
  enumerate_from 0%Z l.

Definition type_err_msg : string := "Input JSON must be an array of objects".

(** The [for ix, doc_data in enumerate(input_json)] loop of the JSON mode. *)
Fixpoint json_documents (keydoc keyid : option string)
    (items : list (Z * json)) : loaded (list RawDocument) :=
  match items with
  | [] => Loaded []
  | (ix, doc_data) :: rest =>
      match (if truthy keyid then subscript doc_data (arg_text keyid)
             else Loaded (JInt ix)) with
      | LoadFails e => LoadFails e
      | Loaded the_id =>
          match subscript doc_data (arg_text keydoc) with
          | LoadFails e => LoadFails e
          | Loaded the_text =>
              match json_documents keydoc keyid rest with
              | LoadFails e => LoadFails e
              | Loaded documents => Loaded (mkRaw the_id the_text :: documents)
              end
          end
      end
  end.

(** [parse_input_documents(args)]; [content] is the text of [args.infile],
    and [json_load] is [json.load] on it ([None] when it raises). *)
Definition parse_input_documents (json_load : string -> option json)
    (args : Args) (content : string) : loaded (list RawDocument) :=
  match input_type args with
  | Some txt =>
      Loaded (map (fun p => mkRaw (JInt (fst p)) (JStr (snd p)))
                (enumerate (readlines content)))
  | Some json_input =>
      match json_load content with
      | None => LoadFails JSONDecodeError
      | Some input_json =>
          if negb (truthy (keydoc args)) then
            LoadFails (AssertionError "--keydoc required with JSON input type")
          else
            match input_json with
            | JArr items =>
                match items with
                | [] => LoadFails IndexError
                | JObj fields :: _ =>
                    match dict_get (arg_text (keydoc args)) fields with
                    | Some _ =>
                        json_documents (keydoc args) (keyid args)
                          (enumerate items)
                    | None =>
                        LoadFails
                          (AssertionError
                             ("'" ++ arg_text (keydoc args) ++ "' not in JSON"))
                    end
                | _ :: _ => LoadFails (AssertionError type_err_msg)
                end
            | _ => LoadFails (AssertionError type_err_msg)
            end
      end
  | None => Loaded []
  end.

(** A loaded document whose id is an integer and whose text is a string is
    a [Document] of the loop of [run]. *)
Definition as_document (d : RawDocument) : option Document :=
  match raw_id d, raw_text d with
  | JInt i, JStr t => Some (mkDocument i t)
  | _, _ => None
  end.

(** The lines of a text put together again. *)
Definition join_lines (lines : list string) : string :=
  fold_right String.append EmptyString lines.

(** ** Vocabulary of the further properties *)

(** No two neighbouring characters of [s] are both in the class [cls]. *)
Fixpoint no_adjacent (cls : ascii -> bool) (s : string) : bool :=
  match s with
  | String a ((String b _) as s') =>
      negb (cls a && cls b) && no_adjacent cls s'
  | _ => true
  end.

(** Every character of [s] satisfies [P]. *)
Fixpoint all_chars (P : ascii -> bool) (s : string) : bool :=
  match s with
  | EmptyString => true
  | String c s' => P c && all_chars P s'
  end.

Definition first_char (s : string) : option ascii :=
  match s with
  | EmptyString => None
  | String c _ => Some c
  end.

Fixpoint last_char (s : string) : option ascii :=
  match s with
  | EmptyString => None
  | String c EmptyString => Some c
  | String _ s' => last_char s'
  end.

Definition is_tab (c : ascii) : bool := (PyStr.code c =? 9).

(** The first result of the store with the id [k]. *)
Definition find_result {JSON : Type} (k : Z) (store : list (Result JSON))
  : option (Result JSON) :=
  List.find (fun r => (id r =? k)%Z) store.

(** The prompts of the requests of a trace, the seconds slept in it, the
    snapshots of the results it writes, and what the output file holds
    after it when it held [stored] before. *)
Definition asked {JSON : Type} (tr : list (event JSON)) : list string :=
  flat_map (fun e => match e with EvAsk p => [p] | _ => [] end) tr.

Definition slept {JSON : Type} (tr : list (event JSON)) : Z :=
  fold_right (fun e acc => match e with
                           | EvSleep seconds => (seconds + acc)%Z
                           | _ => acc
                           end) 0%Z tr.

Definition saves {JSON : Type} (tr : list (event JSON))
  : list (list (Result JSON)) :=
  flat_map (fun e => match e with EvSave rs => [rs] | _ => [] end) tr.

Definition last_saved {JSON : Type} (stored : list (Result JSON))
    (tr : list (event JSON)) : list (Result JSON) :=
  last (saves tr) stored.

(** The results [after] hold the ids of [before] in the same places,
    followed by new ids that all are among [allowed]; and they have at most
    one result per id when [before] had. *)
Definition grown_from {JSON : Type} (allowed : list Z)
    (before after : list (Result JSON)) : Prop :=
  exists new_ids,
    map id after = (map id before ++ new_ids)%list
    /\ incl new_ids allowed
    /\ (unique_ids before -> unique_ids after).

(** The shape of one line: a body without newline, then a newline, or, for
    the last line only, a body that is not empty. *)
Definition line_shape (is_last : bool) (line : string) : Prop :=
  exists body,
    all_chars (fun a => negb (is_newline a)) body = true
    /\ (line = body ++ nl \/ (is_last = true /\ body <> "" /\ line = body)).

(** An element of the input array the loop of the JSON mode can turn into
    a document: an object that has the document key, and the id key when
    one is given. *)
Definition loadable_item (keydoc keyid : option string) (item : json) : bool :=
  match item with
  | JObj fields =>
      match dict_get (arg_text keydoc) fields with
      | Some _ =>
          negb (truthy keyid)
          || match dict_get (arg_text keyid) fields with
             | Some _ => true
             | None => false
             end
      | None => false
      end
  | _ => false
  end.

(** Sample inputs of the loader: an array of two pages, an empty array, and
    an array whose second element is not an object. *)
Definition sample_json_load (content : string) : option json :=
  if (content =? "pages")%string then
    Some (JArr [JObj [("page", JInt 7); ("body", JStr "first")];
                JObj [("page", JInt 9); ("body", JStr "second")]])
  else if (content =? "empty")%string then Some (JArr [])
  else if (content =? "ragged")%string then
    Some (JArr [JObj [("body", JStr "first")]; JStr "second"])
  else None.

Definition json_args : Args :=
  mkArgs (Some json_input) (Some "body") (Some "page").

Definition rate_limit_reply : string :=
  "  HTTP Error 429: Too many requests" ++ nl.

(** What the run on [two_documents] gives when both replies are
    [fenced_reply]: its results and its trace. *)
Definition two_results : list (Result (list (string * Z))) :=
  [mkResult 0 "first" (build_prompt "first" "S") (Some fenced_reply)
     (Some [("a", 1%Z)]);
   mkResult 1 "second" (build_prompt "second" "S") (Some fenced_reply)
     (Some [("a", 1%Z)])].

Definition two_trace : list (event (list (string * Z))) :=
  [EvSleep 5%Z; EvReload;
   EvAsk (build_prompt "first" "S"); EvSave (firstn 1 two_results);
   EvAsk (build_prompt "second" "S"); EvSave two_results].

(** * Properties *)

(** ** Strings *)

Module PyStrFacts.
Import PyStr.

Lemma length_app (s1 s2 : string) :
  String.length (s1 ++ s2) = String.length s1 + String.length s2.
Proof. induction s1 as [|c s1 IH]; simpl; [reflexivity | now rewrite IH]. Qed.

Lemma length_take (n : nat) (s : string) :
  String.length (take n s) = Nat.min n (String.length s).
Proof.
  revert s; induction n as [|n IH]; intros [|c s]; simpl; try reflexivity.
  now rewrite IH.
Qed.

Lemma length_drop (n : nat) (s : string) :
  String.length (drop n s) = String.length s - n.
Proof.
  revert s; induction n as [|n IH]; intros [|c s]; simpl; try reflexivity.
  apply IH.
Qed.

Lemma length_slice_to (n : nat) (s : string) :
  n <= String.length s -> String.length (slice_to n s) = n.
Proof. intros H. unfold slice_to. rewrite length_take. lia. Qed.

Lemma length_slice_last (n : nat) (s : string) :
  n <= String.length s -> String.length (slice_last n s) = n.
Proof. intros H. unfold slice_last. rewrite length_drop. lia. Qed.

Lemma take_drop (n : nat) (s : string) : take n s ++ drop n s = s.
Proof.
  revert s; induction n as [|n IH]; intros [|c s]; simpl; try reflexivity.
  now rewrite IH.
Qed.

Lemma length_replicate (n : nat) (c : ascii) :
  String.length (replicate n c) = n.
Proof. induction n as [|n IH]; simpl; [reflexivity | now rewrite IH]. Qed.

End PyStrFacts.

(** ** clean_document *)

Lemma clean_document_short (page_text : string) :
  String.length (cleaned_text page_text) < DOC_MAX_LENGTH ->
  clean_document page_text = cleaned_text page_text.
Proof.
  intros H. unfold clean_document.
  destruct (Nat.ltb_spec (String.length (cleaned_text page_text)) DOC_MAX_LENGTH);
    [reflexivity | lia].
Qed.

Lemma clean_document_long (page_text : string) :
  DOC_MAX_LENGTH <= String.length (cleaned_text page_text) ->
  clean_document page_text
  = PyStr.slice_to (DOC_MAX_LENGTH - 500) (cleaned_text page_text)
    ++ " " ++ PyStr.slice_last 500 (cleaned_text page_text).
Proof.
  intros H. unfold clean_document.
  destruct (Nat.ltb_spec (String.length (cleaned_text page_text)) DOC_MAX_LENGTH);
    [lia | reflexivity].
Qed.

Lemma DOC_MAX_LENGTH_eq : DOC_MAX_LENGTH = 2500 + 500.
Proof. reflexivity. Qed.

(** C3 (as amended): when the cleaned text is longer than [DOC_MAX_LENGTH]
    (3000), [clean_document] returns its first [DOC_MAX_LENGTH - 500]
    characters, one space and its last 500 characters; that excerpt is
    (3000 - 500) + 1 + 500 = 3001 characters long. *)
Theorem clean_document_truncates (page_text : string) :
  DOC_MAX_LENGTH < String.length (cleaned_text page_text) ->
  clean_document page_text
  = PyStr.slice_to (DOC_MAX_LENGTH - 500) (cleaned_text page_text)
    ++ " " ++ PyStr.slice_last 500 (cleaned_text page_text)
  /\ String.length (clean_document page_text) = DOC_MAX_LENGTH - 500 + 1 + 500
  /\ String.length (clean_document page_text) = 3001.
Proof.
  intros H.
  assert (E : clean_document page_text
              = PyStr.slice_to (DOC_MAX_LENGTH - 500) (cleaned_text page_text)
                ++ " " ++ PyStr.slice_last 500 (cleaned_text page_text))
    by (apply clean_document_long; lia).
  split; [exact E |].
  rewrite E, !PyStrFacts.length_app.
  rewrite DOC_MAX_LENGTH_eq in H |- *.
  rewrite PyStrFacts.length_slice_to, PyStrFacts.length_slice_last by lia.
  split; [reflexivity |].
  change (String.length " ") with 1.
  replace (2500 + 500 - 500) with 2500 by lia. reflexivity.
Qed.

Lemma clean_document_truncates_witness :
  String.length (clean_document (PyStr.replicate 3001 "a"%char)) = 3001.
Proof.
  apply (clean_document_truncates (PyStr.replicate 3001 "a"%char)).
  vm_compute. reflexivity.
Defined.

(** C3 as stated fails: a text of 3001 letters is longer than the maximum,
    and its excerpt has 3001 characters, not 2501. *)
Lemma clean_document_truncates_2501_counterexample :
  ~ (DOC_MAX_LENGTH
       < String.length (cleaned_text (PyStr.replicate 3001 "a"%char)) ->
     String.length (clean_document (PyStr.replicate 3001 "a"%char)) = 2501).
Proof.
  intros H.
  assert (L : DOC_MAX_LENGTH
              < String.length (cleaned_text (PyStr.replicate 3001 "a"%char)))
    by (vm_compute; reflexivity).
  specialize (H L). vm_compute in H. discriminate H.
Qed.

(** C4: at the boundary the code does not return the cleaned text.  A text
    of exactly [DOC_MAX_LENGTH] = 3000 letters is its own cleaned text and is
    within the maximum, yet [clean_document] returns it with a space put in
    after the first 2500 characters: 3001 characters.  (The test in the code
    is [len(cleaned) < DOC_MAX_LENGTH].) *)
Theorem clean_document_at_max_inserts_space :
  let page_text := PyStr.replicate 3000 "a"%char in
  cleaned_text page_text = page_text
  /\ String.length (cleaned_text page_text) <= DOC_MAX_LENGTH
  /\ clean_document page_text
     = PyStr.replicate 2500 "a"%char ++ " " ++ PyStr.replicate 500 "a"%char
  /\ String.length (clean_document page_text) = 3001
  /\ clean_document page_text <> cleaned_text page_text.
Proof.
  assert (E : cleaned_text (PyStr.replicate 3000 "a"%char)
              = PyStr.replicate 3000 "a"%char) by (vm_compute; reflexivity).
  assert (D : clean_document (PyStr.replicate 3000 "a"%char)
              = PyStr.replicate 2500 "a"%char ++ " "
                ++ PyStr.replicate 500 "a"%char) by (vm_compute; reflexivity).
  cbv zeta. rewrite E, D.
  split; [reflexivity | split; [| split; [reflexivity | split]]].
  - rewrite PyStrFacts.length_replicate. unfold DOC_MAX_LENGTH. lia.
  - rewrite !PyStrFacts.length_app, !PyStrFacts.length_replicate. reflexivity.
  - intros H. apply (f_equal String.length) in H.
    rewrite !PyStrFacts.length_app, !PyStrFacts.length_replicate in H.
    simpl in H. lia.
Qed.


(** ** The result store *)

Section ResultStore.

Variable JSON : Type.
Implicit Types (store : list (Result JSON)) (r : Result JSON).

Lemma upsert_absent store r :
  ~ In (id r) (map id store) -> upsert_result store r = (store ++ [r])%list.
Proof.
  induction store as [|r0 store IH]; simpl; intros H; [reflexivity |].
  destruct (Z.eqb_spec (id r0) (id r)) as [E | NE]; simpl.
  - exfalso. apply H. now left.
  - f_equal. apply IH. intros HIn. apply H. now right.
Qed.

Lemma upsert_present a r0 b r :
  id r0 = id r -> ~ In (id r) (map id a) ->
  upsert_result (a ++ r0 :: b) r = (a ++ r :: b)%list.
Proof.
  intros E. induction a as [|x a IH]; simpl; intros H.
  - rewrite E, Z.eqb_refl. reflexivity.
  - destruct (Z.eqb_spec (id x) (id r)) as [E' | NE]; simpl.
    + exfalso. apply H. now left.
    + f_equal. apply IH. intros HIn. apply H. now right.
Qed.

(** Where the first result with a given id sits, if there is one. *)
Lemma first_with_id store (k : Z) :
  ~ In k (map id store)
  \/ exists a r0 b, store = (a ++ r0 :: b)%list /\ id r0 = k
                    /\ ~ In k (map id a).
Proof.
  induction store as [|x store IH]; [left; intros [] |].
  destruct (Z.eq_dec (id x) k) as [E | NE].
  - right. exists [], x, store. repeat split; auto.
  - destruct IH as [H | (a & r0 & b & -> & E & H)].
    + left. simpl. intros [H' | H']; auto.
    + right. exists (x :: a), r0, b. repeat split; auto.
      simpl. intros [H' | H']; auto.
Qed.

(** An upsert keeps the ids of the store, or adds the new id at the end. *)
Lemma upsert_ids store r :
  map id (upsert_result store r)
  = if in_dec Z.eq_dec (id r) (map id store)
    then map id store else (map id store ++ [id r])%list.
Proof.
  destruct (in_dec Z.eq_dec (id r) (map id store)) as [HIn | HNot].
  - destruct (first_with_id store (id r)) as [H | (a & r0 & b & -> & E & H)];
      [contradiction |].
    rewrite upsert_present by assumption.
    rewrite !map_app. simpl. now rewrite E.
  - rewrite upsert_absent by assumption. rewrite map_app. reflexivity.
Qed.

Lemma upsert_preserves_unique store r :
  unique_ids store -> unique_ids (upsert_result store r).
Proof.
  unfold unique_ids. intros H. rewrite upsert_ids.
  destruct (in_dec Z.eq_dec (id r) (map id store)) as [HIn | HNot]; [exact H |].
  apply NoDup_app; [exact H | repeat constructor; intros [] | ].
  intros x Hx [<- | []]. contradiction.
Qed.

(** After an upsert the result sits after results of other ids only: at
    the end of the old store, or in the place of the first result that had
    its id. *)
Lemma upsert_shape store r :
  exists a b, upsert_result store r = (a ++ r :: b)%list
              /\ ~ In (id r) (map id a)
              /\ ((~ In (id r) (map id store) /\ a = store /\ b = [])
                  \/ exists r0, store = (a ++ r0 :: b)%list /\ id r0 = id r).
Proof.
  destruct (first_with_id store (id r)) as [H | (a & r0 & b & -> & E & H)].
  - exists store, []. rewrite upsert_absent by assumption.
    split; [reflexivity | split; [exact H | left; auto]].
  - exists a, b. rewrite upsert_present by assumption.
    split; [reflexivity | split; [exact H | right; now exists r0]].
Qed.

Lemma nth_error_middle (A : Type) (a b : list A) (x : A) :
  nth_error (a ++ x :: b) (length a) = Some x.
Proof. induction a; simpl; auto. Qed.

Lemma nth_error_middle_other (A : Type) (a b : list A) (x y : A) (j : nat) :
  j <> length a -> nth_error (a ++ x :: b) j = nth_error (a ++ y :: b) j.
Proof.
  revert j. induction a as [|z a IH]; intros [|j] H; simpl in *; auto;
    congruence.
Qed.

Lemma unique_position a b r j r' :
  ~ In (id r) (map id a) -> ~ In (id r) (map id b) ->
  nth_error (a ++ r :: b) j = Some r' -> id r' = id r -> j = length a.
Proof.
  intros Ha Hb Hj E.
  destruct (Nat.lt_trichotomy j (length a)) as [Hlt | [Heq | Hgt]]; auto.
  - rewrite nth_error_app1 in Hj by assumption.
    exfalso. apply Ha. rewrite <- E. apply in_map. eapply nth_error_In; eauto.
  - rewrite nth_error_app2 in Hj by lia.
    destruct (j - length a) as [|m] eqn:Em; [lia |]. simpl in Hj.
    exfalso. apply Hb. rewrite <- E. apply in_map. eapply nth_error_In; eauto.
Qed.

End ResultStore.

(** C8: upserting two results with the same id into a store that has at most
    one result per id leaves exactly one result with that id, at the position
    the first of the two took (the position the id already had in the store,
    or the end of the store), holding the second result; the other positions
    are untouched, and every upsert keeps the invariant. *)
Theorem upsert_twice_same_id (JSON : Type) (store : list (Result JSON))
    (r1 r2 : Result JSON) :
  unique_ids store -> id r1 = id r2 ->
  let s1 := upsert_result store r1 in
  let s2 := upsert_result s1 r2 in
  unique_ids s1 /\ unique_ids s2
  /\ exists i,
      nth_error s1 i = Some r1
      /\ nth_error s2 i = Some r2
      /\ (forall j r, nth_error s2 j = Some r -> id r = id r2 -> j = i)
      /\ (forall j, j <> i -> nth_error s2 j = nth_error s1 j)
      /\ length s2 = length s1
      /\ (forall p r0, nth_error store p = Some r0 -> id r0 = id r1 -> p = i)
      /\ (~ In (id r1) (map id store) -> i = length store).
Proof.
  intros U E s1 s2.
  assert (U1 : unique_ids s1) by (apply upsert_preserves_unique; exact U).
  assert (U2 : unique_ids s2) by (apply upsert_preserves_unique; exact U1).
  split; [exact U1 | split; [exact U2 |]].
  destruct (upsert_shape JSON store r1) as (a & b & E1 & Ha & Hst).
  fold s1 in E1.
  assert (Hb : ~ In (id r1) (map id b)).
  { unfold unique_ids in U1. rewrite E1, map_app in U1. simpl in U1.
    apply NoDup_remove_2 in U1. intros H. apply U1, in_or_app. now right. }
  assert (E2 : s2 = (a ++ r2 :: b)%list).
  { unfold s2. rewrite E1. apply upsert_present; [exact E | now rewrite <- E]. }
  exists (length a). rewrite E1, E2.
  repeat split.
  - apply nth_error_middle.
  - apply nth_error_middle.
  - intros j r Hj Er. apply (unique_position JSON a b r2 j r); auto;
      now rewrite <- E.
  - intros j Hj. now apply nth_error_middle_other.
  - rewrite !length_app. reflexivity.
  - intros p r0 Hp Er0.
    destruct Hst as [(HNot & _ & _) | (r0' & Est & Er0')].
    + exfalso. apply HNot. rewrite <- Er0. apply in_map.
      eapply nth_error_In; eauto.
    + rewrite Est in Hp.
      apply (unique_position JSON a b r0' p r0); auto; try congruence;
        now rewrite Er0'.
  - intros HNot. destruct Hst as [(_ & -> & _) | (r0' & Est & Er0')];
      [reflexivity |].
    exfalso. apply HNot. rewrite Est, map_app. apply in_or_app. right. now left.
Qed.

Lemma upsert_twice_same_id_witness :
  let store := [sample_result 4 "a"; sample_result 7 "b"; sample_result 9 "c"] in
  let s2 := upsert_result (upsert_result store (sample_result 7 "x"))
              (sample_result 7 "y") in
  unique_ids s2
  /\ s2 = [sample_result 4 "a"; sample_result 7 "y"; sample_result 9 "c"].
Proof.
  split; [| reflexivity].
  apply (upsert_twice_same_id unit
           [sample_result 4 "a"; sample_result 7 "b"; sample_result 9 "c"]
           (sample_result 7 "x") (sample_result 7 "y")).
  - unfold unique_ids. simpl. repeat constructor; simpl; intuition lia.
  - reflexivity.
Defined.

(** ** The reply classifier *)

Section Classifier.

Variable Chat : Type.
Variable ask : Chat -> string -> option string * Chat.
Variable JSON : Type.

(** One iteration of the loop, test by test. *)
Lemma scrape_loop_unfold (fuel : nat) (current_prompt : string) (waited : Z)
    (chat : Chat) :
  scrape_loop ask (S fuel) current_prompt waited chat
  = match ask chat current_prompt with
    | (None, chat') =>
        (Raise TimeoutException, chat', [@EvAsk JSON current_prompt])
    | (Some reply, chat') =>
        if (5 <? waited + 1)%Z then
          (Raise (BadStateException "Exceeded 5 wait states, starting over."),
           chat', [EvAsk current_prompt])
        else if is_degraded reply then
          after_events
            [EvAsk current_prompt; EvSleep (120 * (waited + 1))%Z]
            (scrape_loop ask fuel current_prompt (waited + 1)%Z chat')
        else if is_refusal reply then
          (Ret None, chat', [EvAsk current_prompt])
        else if is_rate_limited reply then
          (Raise (BadStateException "Hour is over, restart!"), chat',
           [EvAsk current_prompt; EvSleep 3600%Z])
        else if has_closing_brace reply then
          (Ret (Some reply), chat', [EvAsk current_prompt])
        else
          (Raise (BadStateException "Not returning full JSON."), chat',
           [EvAsk current_prompt])
    end.
Proof.
  cbn [scrape_loop]. unfold bind at 1. unfold chat_ask.
  destruct (ask chat current_prompt) as [[reply |] chat']; [| reflexivity].
  destruct (5 <? waited + 1)%Z; [reflexivity |].
  fold (is_degraded reply). destruct (is_degraded reply).
  - unfold bind, sleep, emit.
    destruct (scrape_loop (JSON:=JSON) ask fuel current_prompt (waited + 1)%Z chat')
      as [[x chat''] tr].
    reflexivity.
  - fold (is_refusal reply). destruct (is_refusal reply); [reflexivity |].
    fold (is_rate_limited reply).
    destruct (is_rate_limited reply); [reflexivity |].
    fold (has_closing_brace reply).
    destruct (has_closing_brace reply); reflexivity.
Qed.

Lemma answers_app (chat : Chat) (current_prompt : string)
    (l1 l2 : list string) :
  answers ask chat current_prompt (l1 ++ l2)
  <-> answers ask chat current_prompt l1
      /\ answers ask (session_after ask chat current_prompt (length l1))
           current_prompt l2.
Proof.
  revert chat. induction l1 as [|r l1 IH]; intros chat; simpl.
  - tauto.
  - rewrite IH. tauto.
Qed.

Lemma session_after_S (chat : Chat) (current_prompt : string) (n : nat) :
  session_after ask chat current_prompt (S n)
  = snd (ask (session_after ask chat current_prompt n) current_prompt).
Proof.
  revert chat. induction n as [|n IH]; intros chat; [reflexivity |].
  change (session_after ask chat current_prompt (S (S n)))
    with (session_after ask (snd (ask chat current_prompt)) current_prompt (S n)).
  rewrite IH. reflexivity.
Qed.

(** A reply as the loop sees it: what [ask] returns on the session. *)
Lemma answers_one (chat : Chat) (current_prompt reply : string) :
  answers ask chat current_prompt [reply] ->
  ask chat current_prompt
  = (Some reply, session_after ask chat current_prompt 1).
Proof.
  simpl. intros [H _]. destruct (ask chat current_prompt) as [o c].
  simpl in *. now subst.
Qed.

(** Degraded replies, as long as the counter stays within 5, only add
    their requests and sleeps in front of what the loop does next. *)
Lemma scrape_loop_degraded_prefix (replies : list string) :
  forall (fuel : nat) (current_prompt : string) (waited : Z) (chat : Chat),
    Forall (fun reply => is_degraded reply = true) replies ->
    answers ask chat current_prompt replies ->
    (waited + Z.of_nat (length replies) <= 5)%Z ->
    scrape_loop (JSON:=JSON) ask (length replies + fuel) current_prompt
      waited chat
    = after_events (backoff current_prompt waited (length replies))
        (scrape_loop ask fuel current_prompt
           (waited + Z.of_nat (length replies))%Z
           (session_after ask chat current_prompt (length replies))).
Proof.
  induction replies as [|reply replies IH];
    intros fuel current_prompt waited chat Hdeg Hans Hle.
  - simpl. rewrite Z.add_0_r.
    destruct (scrape_loop (JSON:=JSON) ask fuel current_prompt waited chat) as [[x c] t].
    reflexivity.
  - inversion Hdeg as [|? ? Hd Hdeg']; subst.
    destruct Hans as [Ha Hans'].
    change (length (reply :: replies) + fuel)
      with (S (length replies + fuel)).
    rewrite scrape_loop_unfold.
    destruct (ask chat current_prompt) as [o chat1] eqn:Eask.
    simpl in Ha, Hans'. subst o.
    change (length (reply :: replies)) with (S (length replies)) in *.
    rewrite Nat2Z.inj_succ in Hle.
    destruct (Z.ltb_spec 5 (waited + 1)) as [Hgt | _]; [lia |].
    rewrite Hd.
    rewrite (IH fuel current_prompt (waited + 1)%Z chat1 Hdeg' Hans')
      by lia.
    cbn [session_after backoff]. rewrite Eask. cbn [snd].
    rewrite Nat2Z.inj_succ.
    replace (waited + 1 + Z.of_nat (length replies))%Z
      with (waited + Z.succ (Z.of_nat (length replies)))%Z by lia.
    destruct (scrape_loop (JSON:=JSON) ask fuel current_prompt
                (waited + Z.succ (Z.of_nat (length replies)))%Z
                (session_after ask chat1 current_prompt (length replies)))
      as [[x c] t].
    reflexivity.
Qed.

(** The loop reaches the reply that follows at most five degraded ones
    with the counter at their number. *)
Lemma scrape_loop_reach (fuel : nat) (current_prompt : string)
    (chat : Chat) (replies : list string) (reply : string) :
  Forall (fun r => is_degraded r = true) replies ->
  answers ask chat current_prompt (replies ++ [reply]) ->
  length replies <= 5 ->
  scrape_loop (JSON:=JSON) ask (length replies + S fuel) current_prompt 0%Z
    chat
  = after_events (backoff current_prompt 0%Z (length replies))
      (scrape_loop ask (S fuel) current_prompt (Z.of_nat (length replies))
         (session_after ask chat current_prompt (length replies)))
  /\ ask (session_after ask chat current_prompt (length replies))
       current_prompt
     = (Some reply,
        session_after ask chat current_prompt (S (length replies))).
Proof.
  intros Hdeg Hans Hle. apply answers_app in Hans. destruct Hans as [H1 H2].
  split.
  - rewrite (scrape_loop_degraded_prefix replies (S fuel) current_prompt 0%Z
               chat Hdeg H1) by lia.
    reflexivity.
  - rewrite (answers_one _ _ _ H2).
    rewrite (session_after_S chat current_prompt (length replies)).
    reflexivity.
Qed.

Lemma scrape_via_prompt_unfold (page_text schema : string) (chat : Chat) :
  scrape_via_prompt (JSON:=JSON) ask page_text schema chat
  = match scrape_loop ask scrape_fuel (build_prompt page_text schema) 0%Z
            chat with
    | (Ret response, chat', tr) =>
        (Ret (build_prompt page_text schema, response), chat', tr)
    | (Raise e, chat', tr) => (Raise e, chat', tr)
    | (OutOfFuel, chat', tr) => (OutOfFuel, chat', tr)
    end.
Proof.
  unfold scrape_via_prompt, bind, ret.
  destruct (scrape_loop (JSON:=JSON) ask scrape_fuel
              (build_prompt page_text schema) 0%Z chat) as [[[a | e |] c] t];
    try reflexivity.
  now rewrite app_nil_r.
Qed.

(** The sleep after the [i]-th degraded reply (counting from 0, the counter
    being at [waited] before the first) is [120 * (waited + i + 1)]. *)
Lemma backoff_nth (current_prompt : string) (n i : nat) :
  forall waited : Z,
    i < n ->
    nth_error (backoff (JSON:=JSON) current_prompt waited n) (2 * i)
    = Some (EvAsk current_prompt)
    /\ nth_error (backoff (JSON:=JSON) current_prompt waited n) (2 * i + 1)
       = Some (EvSleep (120 * (waited + Z.of_nat i + 1))%Z).
Proof.
  revert i. induction n as [|n IH]; intros i waited Hi; [lia |].
  destruct i as [|i].
  - simpl. rewrite Z.add_0_r. auto.
  - replace (2 * S i) with (S (S (2 * i))) by lia.
    cbn [backoff nth_error Nat.add].
    destruct (IH i (waited + 1)%Z ltac:(lia)) as [E1 E2].
    split; [exact E1 |].
    rewrite E2. do 2 f_equal. lia.
Qed.

(** After at most four degraded replies, a reply that is not degraded
    decides the outcome. *)
Lemma scrape_via_prompt_last (page_text schema : string) (chat : Chat)
    (replies : list string) (reply : string) :
  Forall (fun r => is_degraded r = true) replies ->
  answers ask chat (build_prompt page_text schema) (replies ++ [reply]) ->
  length replies <= 4 ->
  is_degraded reply = false ->
  scrape_via_prompt (JSON:=JSON) ask page_text schema chat
  = after_events
      (backoff (build_prompt page_text schema) 0%Z (length replies)
         ++ [EvAsk (build_prompt page_text schema)])
      (verdict (build_prompt page_text schema) reply
         (session_after ask chat (build_prompt page_text schema)
            (S (length replies)))).
Proof.
  intros Hdeg Hans Hle Hd.
  assert (Hle5 : length replies <= 5) by lia.
  assert (HF : scrape_fuel = length replies + S (5 - length replies))
    by (unfold scrape_fuel; lia).
  destruct (scrape_loop_reach (5 - length replies) _ _ _ _ Hdeg Hans Hle5)
    as [E Eask].
  rewrite scrape_via_prompt_unfold, HF, E, scrape_loop_unfold, Eask.
  destruct (Z.ltb_spec 5 (Z.of_nat (length replies) + 1)) as [Hgt | _];
    [lia |].
  rewrite Hd. unfold verdict.
  destruct (is_refusal reply);
    [| destruct (is_rate_limited reply);
       [| destruct (has_closing_brace reply)]];
    cbn [after_events]; rewrite <- ?app_assoc; reflexivity.
Qed.

(** After five degraded replies the sixth request raises, whatever the
    reply to it is. *)
Lemma scrape_via_prompt_sixth (page_text schema : string) (chat : Chat)
    (replies : list string) (reply : string) :
  Forall (fun r => is_degraded r = true) replies ->
  answers ask chat (build_prompt page_text schema) (replies ++ [reply]) ->
  length replies = 5 ->
  scrape_via_prompt (JSON:=JSON) ask page_text schema chat
  = (Raise (BadStateException "Exceeded 5 wait states, starting over."),
     session_after ask chat (build_prompt page_text schema) 6,
     (backoff (build_prompt page_text schema) 0%Z 5
        ++ [EvAsk (build_prompt page_text schema)])%list).
Proof.
  intros Hdeg Hans H5.
  assert (Hle5 : length replies <= 5) by lia.
  assert (HF : scrape_fuel = length replies + S 0)
    by (unfold scrape_fuel; lia).
  destruct (scrape_loop_reach 0 _ _ _ _ Hdeg Hans Hle5) as [E Eask].
  rewrite scrape_via_prompt_unfold, HF, E, scrape_loop_unfold, Eask.
  rewrite H5. reflexivity.
Qed.

(** C1 (as amended): after at most four degraded replies in a row, a reply
    that no test catches is accepted; after five, the sixth request ends
    in the fatal [BadStateException] whatever its reply is (so also when
    it is degraded too).  Each degraded reply is followed by a sleep of 120
    seconds times the number of degraded replies so far, then by the same
    request again. *)
Theorem degraded_replies_retry_bound (page_text schema : string)
    (chat : Chat) (replies : list string) (reply : string) :
  let current_prompt := build_prompt page_text schema in
  Forall (fun r => is_degraded r = true) replies ->
  answers ask chat current_prompt (replies ++ [reply]) ->
  (length replies <= 4 -> is_clean reply = true ->
   scrape_via_prompt (JSON:=JSON) ask page_text schema chat
   = (Ret (current_prompt, Some reply),
      session_after ask chat current_prompt (S (length replies)),
      (backoff current_prompt 0%Z (length replies)
         ++ [EvAsk current_prompt])%list))
  /\ (length replies = 5 ->
      scrape_via_prompt (JSON:=JSON) ask page_text schema chat
      = (Raise (BadStateException "Exceeded 5 wait states, starting over."),
         session_after ask chat current_prompt 6,
         (backoff current_prompt 0%Z 5 ++ [EvAsk current_prompt])%list))
  /\ (forall i, i < length replies ->
      nth_error (backoff (JSON:=JSON) current_prompt 0%Z (length replies))
        (2 * i + 1)
      = Some (EvSleep (120 * Z.of_nat (i + 1))%Z)).
Proof.
  intros current_prompt Hdeg Hans. split; [| split].
  - intros Hle Hclean.
    assert (Hle5 : length replies <= 5) by lia.
    assert (HF : scrape_fuel = length replies + S (5 - length replies))
      by (unfold scrape_fuel; lia).
    destruct (scrape_loop_reach (5 - length replies) _ _ _ _ Hdeg Hans Hle5)
      as [E Eask].
    rewrite scrape_via_prompt_unfold, HF.
    fold current_prompt. rewrite E, scrape_loop_unfold, Eask.
    destruct (Z.ltb_spec 5 (Z.of_nat (length replies) + 1)) as [Hgt | _];
      [lia |].
    unfold is_clean in Hclean.
    apply andb_prop in Hclean. destruct Hclean as [Hclean Hbrace].
    apply andb_prop in Hclean. destruct Hclean as [Hclean Hrate].
    apply andb_prop in Hclean. destruct Hclean as [Hd Hrefuse].
    apply negb_true_iff in Hd, Hrefuse, Hrate.
    rewrite Hd, Hrefuse, Hrate, Hbrace. reflexivity.
  - intros H5.
    assert (Hle5 : length replies <= 5) by lia.
    assert (HF : scrape_fuel = length replies + S 0)
      by (unfold scrape_fuel; lia).
    destruct (scrape_loop_reach 0 _ _ _ _ Hdeg Hans Hle5) as [E Eask].
    rewrite scrape_via_prompt_unfold, HF.
    fold current_prompt. rewrite E, scrape_loop_unfold, Eask.
    rewrite H5. reflexivity.
  - intros i Hi.
    destruct (backoff_nth current_prompt (length replies) i 0%Z Hi)
      as [_ ->].
    do 2 f_equal. lia.
Qed.

End Classifier.

Lemma degraded_replies_retry_bound_witness :
  fst (fst (scrape_via_prompt (JSON:=unit) scripted_ask "doc" "S"
              [degraded_reply; degraded_reply; fenced_reply]))
  = Ret (build_prompt "doc" "S", Some fenced_reply).
Proof.
  pose proof (degraded_replies_retry_bound (list string) scripted_ask unit
                "doc" "S" [degraded_reply; degraded_reply; fenced_reply]
                [degraded_reply; degraded_reply] fenced_reply) as H.
  cbv zeta in H.
  destruct H as [H _].
  - repeat constructor.
  - simpl. auto.
  - rewrite H; [reflexivity | simpl; lia | vm_compute; reflexivity].
Defined.

(** C1 as stated fails: five degraded replies are fewer than six, the reply
    after them is one no test catches, and still the sixth request ends in
    the fatal exception instead of accepting it. *)
Lemma degraded_five_then_clean_counterexample :
  let replies := repeat degraded_reply 5 in
  Forall (fun r => is_degraded r = true) replies
  /\ length replies < 6
  /\ is_clean fenced_reply = true
  /\ answers scripted_ask (replies ++ [fenced_reply])%list
       (build_prompt "doc" "S") (replies ++ [fenced_reply])%list
  /\ fst (fst (scrape_via_prompt (JSON:=unit) scripted_ask "doc" "S"
                 (replies ++ [fenced_reply])%list))
     = Raise (BadStateException "Exceeded 5 wait states, starting over.")
  /\ fst (fst (scrape_via_prompt (JSON:=unit) scripted_ask "doc" "S"
                 (replies ++ [fenced_reply])%list))
     <> Ret (build_prompt "doc" "S", Some fenced_reply).
Proof.
  cbv zeta.
  assert (E : fst (fst (scrape_via_prompt (JSON:=unit) scripted_ask "doc" "S"
                          (repeat degraded_reply 5 ++ [fenced_reply])%list))
              = Raise (BadStateException
                         "Exceeded 5 wait states, starting over."))
    by (vm_compute; reflexivity).
  split; [simpl; repeat constructor |].
  split; [simpl; lia |].
  split; [vm_compute; reflexivity |].
  split; [simpl; tauto |].
  split; [exact E | rewrite E; discriminate].
Qed.

(** ** split and find *)

Module PySplitFacts.
Import PyStr.

Lemma split_go_skip (sep : string) (k : nat) :
  forall s, split_go sep k s = split_go sep 0 (drop k s).
Proof.
  induction k as [|k IH]; intros [|c s]; try reflexivity.
  cbn [split_go drop]. apply IH.
Qed.

Lemma prefix_empty (sep : string) : sep <> "" -> prefix sep "" = false.
Proof. destruct sep; [congruence | reflexivity]. Qed.

Lemma split_find_none (sep s : string) :
  find sep s = None -> split sep s = [s].
Proof.
  unfold split. induction s as [|c s IH]; intros H.
  - reflexivity.
  - cbn [find] in H. cbn [split_go].
    destruct (prefix sep (String c s)); [discriminate |].
    destruct (find sep s); [discriminate |].
    rewrite IH by reflexivity. reflexivity.
Qed.

Lemma split_find_some (sep : string) :
  sep <> "" ->
  forall s i,
    find sep s = Some i ->
    split sep s = take i s :: split sep (drop (i + String.length sep) s).
Proof.
  intros Hsep. unfold split. induction s as [|c s IH]; intros i H.
  - cbn [find] in H. rewrite (prefix_empty sep Hsep) in H. discriminate.
  - cbn [find] in H. cbn [split_go].
    destruct (prefix sep (String c s)).
    + injection H as <-. rewrite split_go_skip.
      destruct sep as [|a sep']; [congruence |].
      cbn [String.length Nat.add Nat.sub take drop].
      rewrite Nat.sub_0_r. reflexivity.
    + destruct (find sep s) as [i' |] eqn:Ef; [| discriminate].
      injection H as <-. rewrite (IH i' eq_refl). reflexivity.
Qed.

(** The second piece of a split is what lies between the first two
    separators. *)
Lemma split_second (sep s : string) (i j : nat) :
  sep <> "" ->
  find sep s = Some i ->
  find sep (drop (i + String.length sep) s) = Some j ->
  nth_error (split sep s) 1
  = Some (take j (drop (i + String.length sep) s)).
Proof.
  intros Hsep Hi Hj.
  rewrite (split_find_some sep Hsep s i Hi).
  rewrite (split_find_some sep Hsep _ j Hj). reflexivity.
Qed.

End PySplitFacts.

Lemma fence_not_empty : fence <> "".
Proof. discriminate. Qed.

(** ** Parsing the accepted reply *)

Section Parsing.

Variable JSON : Type.
Variable json_loads : string -> option JSON.

Lemma parse_data_between (reply piece : string) :
  between_fences reply = Some piece ->
  parse_data json_loads (Some reply) = json_loads piece.
Proof.
  unfold between_fences, parse_data.
  destruct (PyStr.find fence reply) as [i |] eqn:Ei; [| discriminate].
  destruct (PyStr.find fence (PyStr.drop (i + String.length fence) reply))
    as [j |] eqn:Ej; [| discriminate].
  intros H. injection H as <-.
  rewrite (PySplitFacts.split_second fence reply i j fence_not_empty Ei Ej).
  reflexivity.
Qed.

Lemma parse_data_no_fence (reply : string) :
  PyStr.find fence reply = None ->
  parse_data json_loads (Some reply) = None.
Proof.
  intros H. unfold parse_data.
  rewrite (PySplitFacts.split_find_none fence reply H). reflexivity.
Qed.

Lemma parse_data_after_fence (reply : string) (i : nat) :
  PyStr.find fence reply = Some i ->
  PyStr.find fence (PyStr.drop (i + String.length fence) reply) = None ->
  parse_data json_loads (Some reply)
  = json_loads (PyStr.drop (i + String.length fence) reply).
Proof.
  intros Hi Hn. unfold parse_data.
  rewrite (PySplitFacts.split_find_some fence fence_not_empty reply i Hi).
  rewrite (PySplitFacts.split_find_none fence _ Hn). reflexivity.
Qed.

End Parsing.

(** ** The loop of run *)

Section Orchestrator.

Variable Chat : Type.
Variable ask : Chat -> string -> option string * Chat.
Variable JSON : Type.
Variable json_loads : string -> option JSON.

Implicit Types (st : LoopState JSON) (chat : Chat) (page_data : Document).

Lemma process_document_skipped schema continue_at st page_data chat :
  is_skipped continue_at page_data = true ->
  process_document ask json_loads schema continue_at st page_data chat
  = (Ret st, chat, []).
Proof.
  unfold is_skipped, process_document. intros H.
  destruct (doc_text page_data =? "")%string; [reflexivity |].
  simpl in H. rewrite H. reflexivity.
Qed.

Lemma process_document_active schema continue_at st page_data chat :
  is_skipped continue_at page_data = false ->
  process_document ask json_loads schema continue_at st page_data chat
  = after_events (pacing st)
      match scrape_via_prompt ask (doc_text page_data) schema chat with
      | (Ret pr, chat', tr) =>
          let results' :=
            upsert_result (results st) (recorded json_loads page_data pr) in
          (Ret (mkLoop (first_scrape st) results'), chat',
           (tr ++ [EvSave results'])%list)
      | (Raise e, chat', tr) => (Raise e, chat', tr)
      | (OutOfFuel, chat', tr) => (OutOfFuel, chat', tr)
      end.
Proof.
  unfold is_skipped, process_document. intros H.
  apply orb_false_elim in H. destruct H as [H1 H2]. rewrite H1, H2.
  destruct st as [[|] rs]; unfold pacing, bind, sleep, emit, ret, recorded;
    cbn [first_scrape results negb];
    destruct (scrape_via_prompt ask (doc_text page_data) schema chat)
      as [[[pr | e |] chat'] tr];
    cbn [after_events app fst snd]; reflexivity.
Qed.

Lemma run_documents_cons schema continue_at st page_data rest chat :
  run_documents ask json_loads schema continue_at st (page_data :: rest) chat
  = match process_document ask json_loads schema continue_at st page_data
            chat with
    | (Ret st', chat', tr) =>
        after_events tr
          (run_documents ask json_loads schema continue_at st' rest chat')
    | (Raise e, chat', tr) => (Raise e, chat', tr)
    | (OutOfFuel, chat', tr) => (OutOfFuel, chat', tr)
    end.
Proof.
  cbn [run_documents]. unfold bind at 1.
  destruct (process_document ask json_loads schema continue_at st page_data
              chat) as [[[st' | e |] chat'] tr]; reflexivity.
Qed.

(** A document that is not skipped and whose last reply, after at most
    four degraded ones, is not degraded. *)
Lemma process_document_last schema continue_at st page_data chat
    (replies : list string) (reply : string) :
  is_skipped continue_at page_data = false ->
  Forall (fun r => is_degraded r = true) replies ->
  answers ask chat (build_prompt (doc_text page_data) schema)
    (replies ++ [reply]) ->
  length replies <= 4 ->
  is_degraded reply = false ->
  process_document ask json_loads schema continue_at st page_data chat
  = after_events
      (pacing st
         ++ backoff (build_prompt (doc_text page_data) schema) 0%Z
              (length replies)
         ++ [EvAsk (build_prompt (doc_text page_data) schema)])
      match verdict (JSON:=JSON) (build_prompt (doc_text page_data) schema)
              reply
              (session_after ask chat
                 (build_prompt (doc_text page_data) schema)
                 (S (length replies))) with
      | (Ret pr, chat', tr) =>
          let results' :=
            upsert_result (results st) (recorded json_loads page_data pr) in
          (Ret (mkLoop (first_scrape st) results'), chat',
           (tr ++ [EvSave results'])%list)
      | (Raise e, chat', tr) => (Raise e, chat', tr)
      | (OutOfFuel, chat', tr) => (OutOfFuel, chat', tr)
      end.
Proof.
  intros Hskip Hdeg Hans Hle Hd.
  rewrite (process_document_active _ _ _ _ _ Hskip).
  rewrite (scrape_via_prompt_last Chat ask JSON _ _ _ _ _ Hdeg Hans Hle Hd).
  destruct (verdict (JSON:=JSON) (build_prompt (doc_text page_data) schema)
              reply
              (session_after ask chat
                 (build_prompt (doc_text page_data) schema)
                 (S (length replies)))) as [[[pr | e |] chat'] tr];
    cbn [after_events]; rewrite <- ?app_assoc; reflexivity.
Qed.

(** C5 (as amended): a reply with the refusal marker, not degraded and
    coming after at most four degraded replies, raises nothing: the result
    of the document is upserted and saved with [data] and [response] both
    [None] (the reply text is not kept), and the loop goes on with the
    next document. *)
Theorem refusal_recorded_without_reply schema continue_at st page_data
    (rest : list Document) chat (replies : list string) (reply : string) :
  let current_prompt := build_prompt (doc_text page_data) schema in
  let result :=
    mkResult (doc_id page_data) (doc_text page_data) current_prompt
      None None in
  let st' := mkLoop (first_scrape st) (upsert_result (results st) result) in
  let chat' := session_after ask chat current_prompt (S (length replies)) in
  let tr := (pacing st ++ backoff current_prompt 0%Z (length replies)
               ++ [EvAsk current_prompt; EvSave (results st')])%list in
  is_skipped continue_at page_data = false ->
  Forall (fun r => is_degraded r = true) replies ->
  answers ask chat current_prompt (replies ++ [reply]) ->
  length replies <= 4 ->
  is_degraded reply = false ->
  is_refusal reply = true ->
  process_document ask json_loads schema continue_at st page_data chat
  = (Ret st', chat', tr)
  /\ run_documents ask json_loads schema continue_at st (page_data :: rest)
       chat
     = after_events tr
         (run_documents ask json_loads schema continue_at st' rest chat')
  /\ response result = None
  /\ data result = None.
Proof.
  intros current_prompt result st' chat' tr Hskip Hdeg Hans Hle Hd Hr.
  assert (E : process_document ask json_loads schema continue_at st
                page_data chat = (Ret st', chat', tr)).
  { rewrite (process_document_last _ _ _ _ _ _ _ Hskip Hdeg Hans Hle Hd).
    unfold verdict. rewrite Hr. cbn [after_events app].
    unfold tr. rewrite <- !app_assoc. reflexivity. }
  split; [exact E |].
  split; [| split; reflexivity].
  rewrite run_documents_cons, E. reflexivity.
Qed.

(** C6: a reply without a closing brace that none of the earlier tests
    catches ends the run in the fatal [BadStateException] at once: nothing
    follows the request it answers, neither a sleep nor another request,
    and the exception passes through [run]'s loop.  (On the sixth request
    it is the guard of the counter that raises.) *)
Theorem incomplete_reply_aborts schema continue_at st page_data
    (rest : list Document) chat (replies : list string) (reply : string) :
  let current_prompt := build_prompt (doc_text page_data) schema in
  let chat' := session_after ask chat current_prompt (S (length replies)) in
  let tr := (backoff current_prompt 0%Z (length replies)
               ++ [EvAsk current_prompt])%list in
  is_skipped continue_at page_data = false ->
  Forall (fun r => is_degraded r = true) replies ->
  answers ask chat current_prompt (replies ++ [reply]) ->
  length replies <= 5 ->
  is_degraded reply = false ->
  is_refusal reply = false ->
  is_rate_limited reply = false ->
  has_closing_brace reply = false ->
  exists msg,
    scrape_via_prompt (JSON:=JSON) ask (doc_text page_data) schema chat
    = (Raise (BadStateException msg), chat', tr)
    /\ process_document ask json_loads schema continue_at st page_data chat
       = (Raise (BadStateException msg), chat', (pacing st ++ tr)%list)
    /\ run_documents ask json_loads schema continue_at st
         (page_data :: rest) chat
       = (Raise (BadStateException msg), chat', (pacing st ++ tr)%list)
    /\ (length replies <= 4 -> msg = "Not returning full JSON.").
Proof.
  intros current_prompt chat' tr Hskip Hdeg Hans Hle Hd Hr Hl Hb.
  assert (Hs : exists msg,
             scrape_via_prompt (JSON:=JSON) ask (doc_text page_data) schema
               chat = (Raise (BadStateException msg), chat', tr)
             /\ (length replies <= 4 -> msg = "Not returning full JSON.")).
  { destruct (Nat.eq_dec (length replies) 5) as [H5 | H5].
    - exists "Exceeded 5 wait states, starting over.". split; [| lia].
      rewrite (scrape_via_prompt_sixth Chat ask JSON _ _ _ _ _ Hdeg Hans H5).
      unfold chat', tr. rewrite H5. reflexivity.
    - exists "Not returning full JSON.". split; [| reflexivity].
      rewrite (scrape_via_prompt_last Chat ask JSON _ _ _ _ _ Hdeg Hans)
        by (assumption || lia).
      unfold verdict. rewrite Hr, Hl, Hb. cbn [after_events].
      rewrite app_nil_r. reflexivity. }
  destruct Hs as (msg & Es & Hmsg). exists msg.
  assert (Ep : process_document ask json_loads schema continue_at st
                 page_data chat
               = (Raise (BadStateException msg), chat',
                  (pacing st ++ tr)%list)).
  { rewrite (process_document_active _ _ _ _ _ Hskip), Es. reflexivity. }
  split; [exact Es | split; [exact Ep | split; [| exact Hmsg]]].
  rewrite run_documents_cons, Ep. reflexivity.
Qed.

(** C9 (as amended): an accepted reply (no test catches it; at most four
    degraded replies before it) is recorded with [data] the parse of the
    second piece of its split at the fence: the text between the first and
    the second fence when there are two, and all the text after the fence
    when there is one only.  Without a fence, or when the parse fails,
    [data] is [None]; in every case the result is upserted and saved and the
    loop goes on with the next document. *)
Theorem accepted_reply_parsed schema continue_at st page_data
    (rest : list Document) chat (replies : list string) (reply : string) :
  let current_prompt := build_prompt (doc_text page_data) schema in
  let parsed := parse_data json_loads (Some reply) in
  let result :=
    mkResult (doc_id page_data) (doc_text page_data) current_prompt
      (Some reply) parsed in
  let st' := mkLoop (first_scrape st) (upsert_result (results st) result) in
  let chat' := session_after ask chat current_prompt (S (length replies)) in
  let tr := (pacing st ++ backoff current_prompt 0%Z (length replies)
               ++ [EvAsk current_prompt; EvSave (results st')])%list in
  is_skipped continue_at page_data = false ->
  Forall (fun r => is_degraded r = true) replies ->
  answers ask chat current_prompt (replies ++ [reply]) ->
  length replies <= 4 ->
  is_clean reply = true ->
  process_document ask json_loads schema continue_at st page_data chat
  = (Ret st', chat', tr)
  /\ run_documents ask json_loads schema continue_at st (page_data :: rest)
       chat
     = after_events tr
         (run_documents ask json_loads schema continue_at st' rest chat')
  /\ (forall piece,
         between_fences reply = Some piece -> parsed = json_loads piece)
  /\ (forall i,
         PyStr.find fence reply = Some i ->
         PyStr.find fence (PyStr.drop (i + String.length fence) reply) = None ->
         parsed = json_loads (PyStr.drop (i + String.length fence) reply))
  /\ (PyStr.find fence reply = None -> parsed = None)
  /\ (forall piece,
         between_fences reply = Some piece -> json_loads piece = None ->
         parsed = None)
  /\ (is_clean fenced_reply = true
      /\ parse_data json_loads (Some fenced_reply)
         = json_loads ("{" ++ dquote ++ "a" ++ dquote ++ ":1}")).
Proof.
  intros current_prompt parsed result st' chat' tr Hskip Hdeg Hans Hle Hc.
  unfold is_clean in Hc.
  apply andb_prop in Hc. destruct Hc as [Hc Hbrace].
  apply andb_prop in Hc. destruct Hc as [Hc Hrate].
  apply andb_prop in Hc. destruct Hc as [Hd Hrefuse].
  apply negb_true_iff in Hd, Hrefuse, Hrate.
  assert (E : process_document ask json_loads schema continue_at st
                page_data chat = (Ret st', chat', tr)).
  { rewrite (process_document_last _ _ _ _ _ _ _ Hskip Hdeg Hans Hle Hd).
    unfold verdict. rewrite Hrefuse, Hrate, Hbrace. cbn [after_events app].
    unfold tr. rewrite <- !app_assoc. reflexivity. }
  split; [exact E |].
  split; [rewrite run_documents_cons, E; reflexivity |].
  split; [intros piece Hp; apply parse_data_between; exact Hp |].
  split; [intros i Hi Hn; apply parse_data_after_fence; assumption |].
  split; [intros Hn; apply parse_data_no_fence; exact Hn |].
  split.
  - intros piece Hp Hj. unfold parsed.
    rewrite (parse_data_between JSON json_loads reply piece Hp). exact Hj.
  - split; [vm_compute; reflexivity |].
    apply parse_data_between. vm_compute. reflexivity.
Qed.

(** *** The resume cursor *)

Lemma fold_left_max_spec (l : list Z) :
  forall x : Z,
    (fold_left Z.max l x = x \/ In (fold_left Z.max l x) l)
    /\ (x <= fold_left Z.max l x)%Z
    /\ (forall y, In y l -> (y <= fold_left Z.max l x)%Z).
Proof.
  induction l as [|a l IH]; intros x; cbn [fold_left].
  - split; [now left | split; [lia | intros y []]].
  - destruct (IH (Z.max x a)) as (H1 & H2 & H3).
    split; [| split].
    + destruct H1 as [H1 | H1]; [| right; now right].
      rewrite H1. destruct (Z.max_spec x a) as [[_ ->] | [_ ->]];
        [right; now left | now left].
    + lia.
    + intros y [<- | Hy]; [lia | now apply H3].
Qed.

Lemma py_max_spec (l : list Z) (m : Z) :
  py_max l = Some m -> In m l /\ (forall y, In y l -> (y <= m)%Z).
Proof.
  destruct l as [|x l]; [discriminate |].
  cbn [py_max]. intros H. injection H as <-.
  destruct (fold_left_max_spec l x) as (H1 & H2 & H3).
  split.
  - destruct H1 as [-> | H1]; [now left | now right].
  - intros y [<- | Hy]; [exact H2 | now apply H3].
Qed.

Lemma py_max_none (stored : list (Result JSON)) :
  py_max (nodup Z.eq_dec (map id stored)) = None <-> stored = [].
Proof.
  split; [| intros ->; reflexivity].
  destruct stored as [|r stored]; [reflexivity |].
  intros H.
  assert (Hin : In (id r) (nodup Z.eq_dec (map id (r :: stored))))
    by (apply nodup_In; now left).
  destruct (nodup Z.eq_dec (map id (r :: stored))); [destruct Hin |].
  discriminate H.
Qed.

Lemma after_events_nil (A : Type)
    (x : res A * Chat * list (event JSON)) : after_events [] x = x.
Proof. destruct x as [[r c] t]. reflexivity. Qed.

(** [run] with an explicit cursor, or with none. *)
Lemma run_explicit documents schema stored headless continue_at chat :
  run ask json_loads documents schema stored headless continue_at false chat
  = after_events (prelude headless)
      match run_documents ask json_loads schema continue_at
              (mkLoop true stored) documents chat with
      | (Ret st, chat', tr) => (Ret (results st), chat', tr)
      | (Raise e, chat', tr) => (Raise e, chat', tr)
      | (OutOfFuel, chat', tr) => (OutOfFuel, chat', tr)
      end.
Proof.
  unfold run, prelude.
  destruct headless; cbn [negb]; unfold bind, sleep, emit, ret;
    destruct (run_documents ask json_loads schema continue_at
                (mkLoop true stored) documents chat)
      as [[[st | e |] chat'] tr];
    cbn [after_events app]; rewrite ?app_nil_r; reflexivity.
Qed.

Lemma run_continue_last documents schema stored headless continue_at chat
    (m : Z) :
  py_max (nodup Z.eq_dec (map id stored)) = Some m ->
  run ask json_loads documents schema stored headless continue_at true chat
  = run ask json_loads documents schema stored headless (Some (m + 1)%Z)
      false chat.
Proof. intros H. unfold run. rewrite H. reflexivity. Qed.

Lemma run_continue_last_empty documents schema headless continue_at chat :
  run ask json_loads documents schema [] headless continue_at true chat
  = (Raise (ValueError "max() arg is an empty sequence"), chat,
     prelude headless).
Proof. unfold run, prelude. destruct headless; reflexivity. Qed.

(** The loop does on a list of documents what it does on the ones it does
    not skip. *)
Lemma run_documents_filter schema continue_at (documents : list Document) :
  forall st chat,
    run_documents ask json_loads schema continue_at st documents chat
    = run_documents ask json_loads schema continue_at st
        (filter (fun d => negb (is_skipped continue_at d)) documents) chat.
Proof.
  induction documents as [|d documents IH]; intros st chat; [reflexivity |].
  cbn [filter].
  destruct (is_skipped continue_at d) eqn:Hs; cbn [negb].
  - rewrite run_documents_cons, (process_document_skipped _ _ _ _ _ Hs).
    rewrite after_events_nil. apply IH.
  - rewrite !run_documents_cons.
    destruct (process_document ask json_loads schema continue_at st d chat)
      as [[[st' | e |] chat'] tr]; try reflexivity.
    now rewrite IH.
Qed.

Lemma filter_idem (A : Type) (f : A -> bool) (l : list A) :
  filter f (filter f l) = filter f l.
Proof.
  induction l as [|a l IH]; [reflexivity |].
  cbn [filter]. destruct (f a) eqn:E; [| exact IH].
  cbn [filter]. rewrite E, IH. reflexivity.
Qed.

Lemma finish_run_after_events (tr : list (event JSON))
    (x : res (LoopState JSON) * Chat * list (event JSON)) :
  finish_run (after_events tr x) = after_events tr (finish_run x).
Proof. destruct x as [[[st | e |] c] t]; reflexivity. Qed.

Lemma run_with_cursor documents schema stored headless continue_at chat :
  run ask json_loads documents schema stored headless continue_at false chat
  = after_events (prelude headless)
      (finish_run
         (run_documents ask json_loads schema continue_at (mkLoop true stored)
            documents chat)).
Proof. rewrite run_explicit. reflexivity. Qed.

(** The first request of [scrape_via_prompt] is made whatever follows. *)
Lemma scrape_via_prompt_first_event (page_text schema : string) chat :
  exists tr',
    snd (scrape_via_prompt (JSON:=JSON) ask page_text schema chat)
    = EvAsk (build_prompt page_text schema) :: tr'.
Proof.
  rewrite scrape_via_prompt_unfold.
  assert (H : exists tr',
             snd (scrape_loop (JSON:=JSON) ask scrape_fuel
                    (build_prompt page_text schema) 0%Z chat)
             = EvAsk (build_prompt page_text schema) :: tr').
  { unfold scrape_fuel. rewrite scrape_loop_unfold.
    destruct (ask chat (build_prompt page_text schema)) as [[reply |] chat'];
      [| eexists; reflexivity].
    destruct (5 <? 0 + 1)%Z; [eexists; reflexivity |].
    destruct (is_degraded reply).
    - destruct (scrape_loop (JSON:=JSON) ask 5
                  (build_prompt page_text schema) (0 + 1)%Z chat')
        as [[x c] t].
      eexists. reflexivity.
    - destruct (is_refusal reply);
        [| destruct (is_rate_limited reply);
           [| destruct (has_closing_brace reply)]]; eexists; reflexivity. }
  destruct (scrape_loop (JSON:=JSON) ask scrape_fuel
              (build_prompt page_text schema) 0%Z chat) as [[[a | e |] c] t];
    exact H.
Qed.

(** The loop passes over the documents it skips and works on the first one
    it does not skip. *)
Lemma run_documents_first_active schema continue_at
    (below : list Document) page_data (rest : list Document) :
  forall st chat,
    forallb (is_skipped continue_at) below = true ->
    is_skipped continue_at page_data = false ->
    run_documents ask json_loads schema continue_at st
      (below ++ page_data :: rest) chat
    = after_events (pacing st)
        match scrape_via_prompt ask (doc_text page_data) schema chat with
        | (Ret pr, chat', tr) =>
            let results' :=
              upsert_result (results st) (recorded json_loads page_data pr) in
            after_events (tr ++ [EvSave results'])
              (run_documents ask json_loads schema continue_at
                 (mkLoop (first_scrape st) results') rest chat')
        | (Raise e, chat', tr) => (Raise e, chat', tr)
        | (OutOfFuel, chat', tr) => (OutOfFuel, chat', tr)
        end.
Proof.
  induction below as [|b below IH]; intros st chat Hb Hd.
  - cbn [app]. rewrite run_documents_cons.
    rewrite (process_document_active _ _ _ _ _ Hd).
    destruct (scrape_via_prompt ask (doc_text page_data) schema chat)
      as [[[pr | e |] chat'] tr]; cbn [after_events]; try reflexivity.
    cbv zeta.
    destruct (run_documents ask json_loads schema continue_at
                (mkLoop (first_scrape st)
                   (upsert_result (results st)
                      (recorded json_loads page_data pr))) rest chat')
      as [[r c] t].
    cbn [after_events]. rewrite <- !app_assoc. reflexivity.
  - cbn [forallb] in Hb. apply andb_prop in Hb. destruct Hb as [Hb Hbs].
    cbn [app]. rewrite run_documents_cons.
    rewrite (process_document_skipped _ _ _ _ _ Hb), after_events_nil.
    apply IH; assumption.
Qed.

Lemma run_documents_all_passed schema continue_at
    (documents : list Document) :
  forall st chat,
    forallb (is_skipped continue_at) documents = true ->
    run_documents ask json_loads schema continue_at st documents chat
    = (Ret st, chat, []).
Proof.
  induction documents as [|d documents IH]; intros st chat H; [reflexivity |].
  cbn [forallb] in H. apply andb_prop in H. destruct H as [Hd Hds].
  rewrite run_documents_cons, (process_document_skipped _ _ _ _ _ Hd).
  rewrite after_events_nil. apply IH. exact Hds.
Qed.

(** What [run] does from the first document it does not skip, the loop
    starting on the results [stored] with the cursor [cursor]. *)
Lemma run_from_first_active schema stored headless (cursor : option Z)
    (below : list Document) page_data (rest : list Document) chat :
  forallb (is_skipped cursor) below = true ->
  is_skipped cursor page_data = false ->
  after_events (prelude headless)
    (finish_run
       (run_documents ask json_loads schema cursor (mkLoop true stored)
          (below ++ page_data :: rest) chat))
  = after_events (prelude headless)
      match scrape_via_prompt ask (doc_text page_data) schema chat with
      | (Ret pr, chat', tr) =>
          let results' :=
            upsert_result stored (recorded json_loads page_data pr) in
          after_events (tr ++ [EvSave results'])
            (finish_run
               (run_documents ask json_loads schema cursor
                  (mkLoop true results') rest chat'))
      | (Raise e, chat', tr) => (Raise e, chat', tr)
      | (OutOfFuel, chat', tr) => (OutOfFuel, chat', tr)
      end
  /\ exists tr',
      snd (after_events (prelude headless)
             (finish_run
                (run_documents ask json_loads schema cursor
                   (mkLoop true stored) (below ++ page_data :: rest) chat)))
      = (prelude headless
           ++ EvAsk (build_prompt (doc_text page_data) schema) :: tr')%list.
Proof.
  intros Hb Hd.
  rewrite (run_documents_first_active schema cursor below page_data rest
             (mkLoop true stored) chat Hb Hd).
  cbn [pacing first_scrape results negb]. rewrite after_events_nil.
  destruct (scrape_via_prompt_first_event (doc_text page_data) schema chat)
    as [tr0 Htr0].
  destruct (scrape_via_prompt ask (doc_text page_data) schema chat)
    as [[[pr | e |] chat'] tr]; cbn [snd] in Htr0; subst tr.
  - cbv zeta. rewrite finish_run_after_events.
    split; [reflexivity |].
    destruct (finish_run
                (run_documents ask json_loads schema cursor
                   (mkLoop true
                      (upsert_result stored
                         (recorded json_loads page_data pr))) rest chat'))
      as [[r c] t].
    cbn [after_events snd app]. eexists. reflexivity.
  - split; [reflexivity |]. cbn [finish_run after_events snd].
    eexists. reflexivity.
  - split; [reflexivity |]. cbn [finish_run after_events snd].
    eexists. reflexivity.
Qed.

Lemma below_cursor_skipped (cursor : Z) (below : list Document) :
  Forall (fun b => (doc_id b < cursor)%Z \/ doc_text b = "") below ->
  forallb (is_skipped (Some cursor)) below = true.
Proof.
  intros H. apply forallb_forall. intros b Hb.
  rewrite Forall_forall in H. unfold is_skipped.
  destruct (H b Hb) as [Hlt | Ht].
  - apply Z.ltb_lt in Hlt. rewrite Hlt. apply orb_true_r.
  - rewrite Ht. reflexivity.
Qed.

(** C7: with [continue_last] the cursor of the run is one past the largest
    id of the stored results.  A document whose id is below the cursor is
    passed over with no request and no change of the results, whether the
    store holds its id or not; the first document that is not blank and
    whose id is the cursor or above it gets the first request of the run,
    its result is upserted into the stored results and saved, and the loop
    goes on with the documents after it. *)
Theorem resume_after_last_stored_id schema stored headless continue_at chat
    (m : Z) :
  py_max (nodup Z.eq_dec (map id stored)) = Some m ->
  let cursor := (m + 1)%Z in
  (exists r, In r stored /\ id r = m)
  /\ (forall r, In r stored -> (id r < cursor)%Z)
  /\ (forall st page_data c,
         (doc_id page_data < cursor)%Z ->
         process_document ask json_loads schema (Some cursor) st page_data c
         = (Ret st, c, []))
  /\ (forall below,
         Forall (fun b => (doc_id b < cursor)%Z \/ doc_text b = "") below ->
         run ask json_loads below schema stored headless continue_at true chat
         = (Ret stored, chat, prelude headless))
  /\ (forall below page_data rest,
         Forall (fun b => (doc_id b < cursor)%Z \/ doc_text b = "") below ->
         doc_text page_data <> "" ->
         (cursor <= doc_id page_data)%Z ->
         run ask json_loads (below ++ page_data :: rest) schema stored
           headless continue_at true chat
         = after_events (prelude headless)
             match scrape_via_prompt ask (doc_text page_data) schema chat with
             | (Ret pr, chat', tr) =>
                 let results' :=
                   upsert_result stored (recorded json_loads page_data pr) in
                 after_events (tr ++ [EvSave results'])
                   (finish_run
                      (run_documents ask json_loads schema (Some cursor)
                         (mkLoop true results') rest chat'))
             | (Raise e, chat', tr) => (Raise e, chat', tr)
             | (OutOfFuel, chat', tr) => (OutOfFuel, chat', tr)
             end
         /\ exists tr',
             snd (run ask json_loads (below ++ page_data :: rest) schema
                    stored headless continue_at true chat)
             = (prelude headless
                  ++ EvAsk (build_prompt (doc_text page_data) schema) :: tr')%list).
Proof.
  intros Hmax cursor.
  destruct (py_max_spec _ _ Hmax) as [Hin Hle].
  apply nodup_In in Hin. apply in_map_iff in Hin.
  destruct Hin as (r & Er & Hr).
  split; [exists r; split; assumption |].
  split.
  { intros r' Hr'. unfold cursor.
    assert ((id r' <= m)%Z); [| lia].
    apply Hle, nodup_In, in_map. exact Hr'. }
  split.
  { intros st page_data c Hlt. apply process_document_skipped.
    unfold is_skipped. apply Z.ltb_lt in Hlt. rewrite Hlt.
    apply orb_true_r. }
  split.
  { intros below Hb.
    rewrite (run_continue_last _ _ _ _ _ _ m Hmax), run_with_cursor.
    rewrite (run_documents_all_passed schema (Some cursor) below _ _
               (below_cursor_skipped cursor below Hb)).
    cbn [finish_run after_events results]. rewrite app_nil_r. reflexivity. }
  intros below page_data rest Hb Ht Hge.
  rewrite (run_continue_last _ _ _ _ _ _ m Hmax), run_with_cursor.
  apply run_from_first_active.
  - exact (below_cursor_skipped cursor below Hb).
  - unfold is_skipped.
    destruct (String.eqb_spec (doc_text page_data) ""); [contradiction |].
    cbn [orb]. apply Z.ltb_ge. exact Hge.
Qed.

(** *** How a run can end *)

Lemma after_events_result (A : Type) (tr : list (event JSON))
    (x : res A * Chat * list (event JSON)) :
  fst (fst (after_events tr x)) = fst (fst x).
Proof. destruct x as [[r c] t]. reflexivity. Qed.

Lemma after_events_trace (A : Type) (tr : list (event JSON))
    (x : res A * Chat * list (event JSON)) :
  snd (after_events tr x) = (tr ++ snd x)%list.
Proof. destruct x as [[r c] t]. reflexivity. Qed.

(** With fuel for the iterations the counter still allows, the loop ends
    with a value or with an exception of the session: the fuel does not run
    out. *)
Lemma scrape_loop_benign (current_prompt : string) (fuel : nat) :
  forall (waited : Z) chat,
    1 <= fuel -> (6 <= waited + Z.of_nat fuel)%Z ->
    benign (fst (fst (scrape_loop (JSON:=JSON) ask fuel current_prompt
                        waited chat))).
Proof.
  induction fuel as [|fuel IH]; intros waited chat H1 H6; [lia |].
  rewrite scrape_loop_unfold.
  destruct (ask chat current_prompt) as [[reply |] chat']; [| exact I].
  destruct (Z.ltb_spec 5 (waited + 1)) as [Hgt | Hle]; [exact I |].
  destruct (is_degraded reply).
  - rewrite after_events_result. apply IH; lia.
  - destruct (is_refusal reply); [exact I |].
    destruct (is_rate_limited reply); [exact I |].
    destruct (has_closing_brace reply); exact I.
Qed.

Lemma scrape_via_prompt_benign page_text schema chat :
  benign (fst (fst (scrape_via_prompt (JSON:=JSON) ask page_text schema
                      chat))).
Proof.
  rewrite scrape_via_prompt_unfold.
  pose proof (scrape_loop_benign (build_prompt page_text schema)
                scrape_fuel 0%Z chat) as H.
  destruct (scrape_loop (JSON:=JSON) ask scrape_fuel
              (build_prompt page_text schema) 0%Z chat)
    as [[[a | e |] c] t]; cbn [fst] in *;
    try exact I; apply H; unfold scrape_fuel; lia.
Qed.

Lemma process_document_benign schema continue_at st page_data chat :
  benign (fst (fst (process_document ask json_loads schema continue_at st
                      page_data chat))).
Proof.
  destruct (is_skipped continue_at page_data) eqn:Hs.
  - rewrite (process_document_skipped _ _ _ _ _ Hs). exact I.
  - rewrite (process_document_active _ _ _ _ _ Hs), after_events_result.
    pose proof (scrape_via_prompt_benign (doc_text page_data) schema chat)
      as H.
    destruct (scrape_via_prompt (JSON:=JSON) ask (doc_text page_data) schema
                chat) as [[[pr | e |] c] t]; cbn [fst] in *;
      try exact I; exact H.
Qed.

Lemma run_documents_benign schema continue_at (documents : list Document) :
  forall st chat,
    benign (fst (fst (run_documents ask json_loads schema continue_at st
                        documents chat))).
Proof.
  induction documents as [|d documents IH]; intros st chat; [exact I |].
  rewrite run_documents_cons.
  pose proof (process_document_benign schema continue_at st d chat) as H.
  destruct (process_document ask json_loads schema continue_at st d chat)
    as [[[st' | e |] chat'] tr]; cbn [fst] in *; try exact H.
  rewrite after_events_result. apply IH.
Qed.

(** A run with an explicit cursor or none, and a run with [continue_last]
    on a store that is not empty, end with the results or with an exception
    of the session. *)
Lemma run_benign documents schema stored headless continue_at continue_last
    chat :
  continue_last = false \/ stored <> [] ->
  benign (fst (fst (run ask json_loads documents schema stored headless
                      continue_at continue_last chat))).
Proof.
  intros H.
  assert (He : forall ca,
             benign (fst (fst (run ask json_loads documents schema stored
                                 headless ca false chat)))).
  { intros ca. rewrite run_explicit, after_events_result.
    pose proof (run_documents_benign schema ca documents
                  (mkLoop true stored) chat) as Hb.
    destruct (run_documents ask json_loads schema ca (mkLoop true stored)
                documents chat) as [[[st | e |] c] t]; cbn [fst] in *;
      try exact I; exact Hb. }
  destruct continue_last; [| apply He].
  destruct H as [H | H]; [discriminate |].
  destruct (py_max (nodup Z.eq_dec (map id stored))) as [m |] eqn:Em.
  - rewrite (run_continue_last _ _ _ _ _ _ m Em). apply He.
  - apply py_max_none in Em. contradiction.
Qed.

(** C10: with [continue_last] and no stored result the run ends in the
    [ValueError] of [max] on an empty list, right after the start: no
    request is made and nothing is saved.  With a stored result the run
    does not end that way. *)
Theorem continue_last_needs_a_stored_result documents schema headless
    continue_at chat :
  run ask json_loads documents schema [] headless continue_at true chat
  = (Raise (ValueError "max() arg is an empty sequence"), chat,
     prelude headless)
  /\ (forall stored msg,
         stored <> [] ->
         fst (fst (run ask json_loads documents schema stored headless
                     continue_at true chat))
         <> Raise (ValueError msg)).
Proof.
  split; [apply run_continue_last_empty |].
  intros stored msg Hne E.
  pose proof (run_benign documents schema stored headless continue_at true
                chat (or_intror Hne)) as Hb.
  rewrite E in Hb. exact Hb.
Qed.

(** *** The pacing sleep *)

Lemma scrape_loop_no_pacing (current_prompt : string) (fuel : nat) :
  forall (waited : Z) chat,
    ~ In (EvSleep 60%Z)
        (snd (scrape_loop (JSON:=JSON) ask fuel current_prompt waited chat)).
Proof.
  induction fuel as [|fuel IH]; intros waited chat; [intros [] |].
  rewrite scrape_loop_unfold.
  destruct (ask chat current_prompt) as [[reply |] chat'];
    [| intros [H | []]; discriminate H].
  destruct (5 <? waited + 1)%Z; [intros [H | []]; discriminate H |].
  destruct (is_degraded reply).
  - rewrite after_events_trace. intros H. cbn [app In] in H.
    destruct H as [H | [H | H]].
    + discriminate H.
    + assert (E : (120 * (waited + 1) = 60)%Z) by congruence. lia.
    + exact (IH _ _ H).
  - destruct (is_refusal reply); [intros [H | []]; discriminate H |].
    destruct (is_rate_limited reply);
      [intros [H | [H | []]]; discriminate H |].
    destruct (has_closing_brace reply); intros [H | []]; discriminate H.
Qed.

Lemma scrape_via_prompt_no_pacing page_text schema chat :
  ~ In (EvSleep 60%Z)
      (snd (scrape_via_prompt (JSON:=JSON) ask page_text schema chat)).
Proof.
  rewrite scrape_via_prompt_unfold.
  pose proof (scrape_loop_no_pacing (build_prompt page_text schema)
                scrape_fuel 0%Z chat) as H.
  destruct (scrape_loop (JSON:=JSON) ask scrape_fuel
              (build_prompt page_text schema) 0%Z chat)
    as [[[a | e |] c] t]; exact H.
Qed.

(** The flag [first_scrape] is never cleared, so the loop never sleeps
    for pacing. *)
Lemma run_documents_no_pacing schema continue_at
    (documents : list Document) :
  forall st chat,
    first_scrape st = true ->
    ~ In (EvSleep 60%Z)
        (snd (run_documents ask json_loads schema continue_at st documents
                chat)).
Proof.
  induction documents as [|d documents IH]; intros st chat Hfs;
    [intros [] |].
  rewrite run_documents_cons.
  destruct (is_skipped continue_at d) eqn:Hs.
  - rewrite (process_document_skipped _ _ _ _ _ Hs), after_events_nil.
    now apply IH.
  - rewrite (process_document_active _ _ _ _ _ Hs).
    unfold pacing. rewrite Hfs. cbn [negb]. rewrite after_events_nil.
    pose proof (scrape_via_prompt_no_pacing (doc_text d) schema chat) as H.
    destruct (scrape_via_prompt (JSON:=JSON) ask (doc_text d) schema chat)
      as [[[pr | e |] c] t]; cbn [snd] in H; try exact H.
    cbv zeta. rewrite after_events_trace. intros Hin.
    apply in_app_or in Hin. destruct Hin as [Hin | Hin].
    + apply in_app_or in Hin. destruct Hin as [Hin | [Hin | []]];
        [exact (H Hin) | discriminate Hin].
    + revert Hin. apply IH. reflexivity.
Qed.

Lemma run_no_pacing documents schema stored headless continue_at
    continue_last chat :
  ~ In (EvSleep 60%Z)
      (snd (run ask json_loads documents schema stored headless continue_at
              continue_last chat)).
Proof.
  assert (He : forall ca,
             ~ In (EvSleep 60%Z)
                 (snd (run ask json_loads documents schema stored headless
                         ca false chat))).
  { intros ca. rewrite run_explicit, after_events_trace.
    pose proof (run_documents_no_pacing schema ca documents
                  (mkLoop true stored) chat eq_refl) as H.
    intros Hin. apply in_app_or in Hin. destruct Hin as [Hin | Hin].
    - unfold prelude in Hin.
      destruct headless; cbn [negb] in Hin;
        destruct Hin as [Hin | [Hin | []]]; discriminate Hin.
    - destruct (run_documents ask json_loads schema ca (mkLoop true stored)
                  documents chat) as [[[st | e |] c] t]; exact (H Hin). }
  destruct continue_last; [| apply He].
  destruct (py_max (nodup Z.eq_dec (map id stored))) as [m |] eqn:Em.
  - rewrite (run_continue_last _ _ _ _ _ _ m Em). apply He.
  - apply py_max_none in Em. subst stored.
    rewrite run_continue_last_empty. unfold prelude.
    destruct headless; cbn [negb snd]; intros [H | [H | []]]; discriminate H.
Qed.

End Orchestrator.

(** ** The properties on sample runs *)

Lemma refusal_recorded_without_reply_witness :
  process_document scripted_ask sample_json_loads "S" None (mkLoop true [])
    (mkDocument 0 "first") [refusal_reply]
  = (Ret (mkLoop true
            [mkResult 0 "first" (build_prompt "first" "S") None None]),
     [],
     [EvAsk (build_prompt "first" "S");
      EvSave [mkResult 0 "first" (build_prompt "first" "S") None None]]).
Proof.
  pose proof (refusal_recorded_without_reply (list string) scripted_ask _
                sample_json_loads "S" None (mkLoop true [])
                (mkDocument 0 "first") [] [refusal_reply] [] refusal_reply)
    as H.
  cbv zeta in H.
  destruct H as [H _].
  - reflexivity.
  - constructor.
  - simpl. tauto.
  - simpl. lia.
  - vm_compute. reflexivity.
  - vm_compute. reflexivity.
  - exact H.
Defined.

(** C5 as stated fails on the reply text: the result recorded for a refused
    document has [response = None], not the reply. *)
Lemma refusal_reply_not_retained_counterexample :
  is_refusal refusal_reply = true
  /\ fst (fst (run scripted_ask sample_json_loads [mkDocument 0 "first"] "S"
                 [] true None false [refusal_reply]))
     = Ret [mkResult 0 "first" (build_prompt "first" "S") None None]
  /\ fst (fst (run scripted_ask sample_json_loads [mkDocument 0 "first"] "S"
                 [] true None false [refusal_reply]))
     <> Ret [mkResult 0 "first" (build_prompt "first" "S")
               (Some refusal_reply) None].
Proof.
  assert (E : fst (fst (run scripted_ask sample_json_loads
                          [mkDocument 0 "first"] "S" [] true None false
                          [refusal_reply]))
              = Ret [mkResult 0 "first" (build_prompt "first" "S") None None])
    by (vm_compute; reflexivity).
  split; [vm_compute; reflexivity |].
  split; [exact E |].
  rewrite E. intros H. injection H as H. discriminate H.
Qed.

Lemma incomplete_reply_aborts_witness :
  exists msg,
    process_document scripted_ask sample_json_loads "S" None (mkLoop true [])
      (mkDocument 0 "first") [cut_reply]
    = (Raise (BadStateException msg), [],
       [EvAsk (build_prompt "first" "S")])
    /\ msg = "Not returning full JSON.".
Proof.
  pose proof (incomplete_reply_aborts (list string) scripted_ask _
                sample_json_loads "S" None (mkLoop true [])
                (mkDocument 0 "first") [] [cut_reply] [] cut_reply) as H.
  cbv zeta in H.
  destruct H as (msg & _ & Hp & _ & Hmsg).
  - reflexivity.
  - constructor.
  - simpl. tauto.
  - simpl. lia.
  - vm_compute. reflexivity.
  - vm_compute. reflexivity.
  - vm_compute. reflexivity.
  - vm_compute. reflexivity.
  - exists msg. split; [exact Hp | apply Hmsg; simpl; lia].
Defined.

Lemma accepted_reply_parsed_witness :
  process_document scripted_ask sample_json_loads "S" None (mkLoop true [])
    (mkDocument 0 "first") [fenced_reply]
  = (Ret (mkLoop true
            [mkResult 0 "first" (build_prompt "first" "S")
               (Some fenced_reply) (Some [("a", 1%Z)])]),
     [],
     [EvAsk (build_prompt "first" "S");
      EvSave [mkResult 0 "first" (build_prompt "first" "S")
                (Some fenced_reply) (Some [("a", 1%Z)])]]).
Proof.
  pose proof (accepted_reply_parsed (list string) scripted_ask _
                sample_json_loads "S" None (mkLoop true [])
                (mkDocument 0 "first") [] [fenced_reply] [] fenced_reply)
    as H.
  cbv zeta in H.
  destruct H as [H _].
  - reflexivity.
  - constructor.
  - simpl. tauto.
  - simpl. lia.
  - vm_compute. reflexivity.
  - exact H.
Defined.

(** C9 as stated fails on a reply with one fence: it has no text between a
    first and a second fence, and still [data] is not [None] but the parse
    of all that follows the fence. *)
Lemma single_fence_reply_counterexample :
  is_clean single_fence_reply = true
  /\ between_fences single_fence_reply = None
  /\ process_document scripted_ask sample_json_loads "S" None (mkLoop true [])
       (mkDocument 0 "first") [single_fence_reply]
     = (Ret (mkLoop true
               [mkResult 0 "first" (build_prompt "first" "S")
                  (Some single_fence_reply) (Some [("a", 1%Z)])]),
        [],
        [EvAsk (build_prompt "first" "S");
         EvSave [mkResult 0 "first" (build_prompt "first" "S")
                   (Some single_fence_reply) (Some [("a", 1%Z)])]])
  /\ parse_data sample_json_loads (Some single_fence_reply) <> None.
Proof.
  split; [vm_compute; reflexivity |].
  split; [vm_compute; reflexivity |].
  split; [vm_compute; reflexivity |].
  vm_compute. discriminate.
Qed.

Lemma resume_after_last_stored_id_witness :
  py_max (nodup Z.eq_dec (map id (@stored_025 (list (string * Z))))) = Some 5%Z
  /\ run scripted_ask sample_json_loads resume_documents "S" stored_025 true
       None true [fenced_reply]
     = (Ret (stored_025
               ++ [mkResult 6 "six" (build_prompt "six" "S")
                     (Some fenced_reply) (Some [("a", 1%Z)])])%list,
        [],
        [EvSleep 5%Z; EvReload; EvAsk (build_prompt "six" "S");
         EvSave (stored_025
                   ++ [mkResult 6 "six" (build_prompt "six" "S")
                         (Some fenced_reply) (Some [("a", 1%Z)])])%list]).
Proof.
  split; [reflexivity |].
  destruct (resume_after_last_stored_id (list string) scripted_ask _
              sample_json_loads "S" stored_025 true None [fenced_reply] 5%Z
              eq_refl) as (_ & _ & _ & _ & H).
  destruct (H [mkDocument 3 "three"] (mkDocument 6 "six") []) as [Hrun _].
  - constructor; [left; simpl; lia | constructor].
  - discriminate.
  - simpl. lia.
  - change ([mkDocument 3 "three"] ++ [mkDocument 6 "six"])%list
      with resume_documents in Hrun.
    rewrite Hrun. vm_compute. reflexivity.
Defined.

(** The spec's example: with the ids 0, 2 and 5 stored, the document with
    id 3 gets no request, and the one with id 6 is the first one asked. *)
Example resume_example :
  snd (run scripted_ask sample_json_loads resume_documents "S" stored_025
         true None true [fenced_reply])
  = [EvSleep 5%Z; EvReload;
     EvAsk (build_prompt "six" "S");
     EvSave (stored_025
               ++ [mkResult 6 "six" (build_prompt "six" "S")
                     (Some fenced_reply) (Some [("a", 1%Z)])])%list].
Proof. vm_compute. reflexivity. Qed.

(** C2: the pacing sleep does not happen.  On two documents whose replies
    are accepted, the second request follows the save of the first result
    with no [time.sleep(60)] between them; and no run has that sleep at all,
    as [first_scrape] is only set to [False] inside the branch that tests it
    to be [False]. *)
Theorem second_request_is_not_paced :
  let p0 := build_prompt "first" "S" in
  let p1 := build_prompt "second" "S" in
  let r0 := mkResult 0 "first" p0 (Some fenced_reply) (Some [("a", 1%Z)]) in
  let r1 := mkResult 1 "second" p1 (Some fenced_reply) (Some [("a", 1%Z)]) in
  run scripted_ask sample_json_loads two_documents "S" [] true None false
    [fenced_reply; fenced_reply]
  = (Ret [r0; r1], [],
     [EvSleep 5%Z; EvReload; EvAsk p0; EvSave [r0]; EvAsk p1;
      EvSave [r0; r1]])
  /\ ~ In (EvSleep 60%Z)
         (snd (run scripted_ask sample_json_loads two_documents "S" [] true
                 None false [fenced_reply; fenced_reply])).
Proof.
  cbv zeta. split; [vm_compute; reflexivity | apply run_no_pacing].
Qed.

(** ** The string operations on small inputs *)

Example clean_collapses_whitespace :
  clean_document ("  a " ++ nl ++ nl ++ String "009"%char "  b" ++ nl)
  = "a " ++ nl ++ " b".
Proof. vm_compute. reflexivity. Qed.

Example split_fenced_reply :
  PyStr.split fence fenced_reply
  = ["prefix "; "{" ++ dquote ++ "a" ++ dquote ++ ":1}"; " suffix"].
Proof. vm_compute. reflexivity. Qed.

Example split_four_backticks : PyStr.split fence "x````y" = ["x"; "`y"].
Proof. vm_compute. reflexivity. Qed.

Example sample_replies_classified :
  is_degraded degraded_reply = true
  /\ is_refusal refusal_reply = true /\ is_degraded refusal_reply = false
  /\ is_rate_limited "  HTTP Error 429: Too many requests " = true
  /\ has_closing_brace cut_reply = false
  /\ is_clean fenced_reply = true.
Proof. vm_compute. repeat split; reflexivity. Qed.

(** A single fence: the second piece of the split is all that follows it. *)
Example single_fence_parsed :
  parse_data sample_json_loads
    (Some ("```{" ++ dquote ++ "a" ++ dquote ++ ":1}"))
  = Some [("a", 1%Z)].
Proof. vm_compute. reflexivity. Qed.


(** * Further properties *)

(** ** The cleaned text *)

Lemma re_sub_runs_cons (cls : ascii -> bool) (rep : ascii) (c : ascii)
    (s : string) :
  PyStr.re_sub_runs cls rep (String c s)
  = if cls c then
      match s with
      | EmptyString => String rep EmptyString
      | String c' _ =>
          if cls c' then PyStr.re_sub_runs cls rep s
          else String rep (PyStr.re_sub_runs cls rep s)
      end
    else String c (PyStr.re_sub_runs cls rep s).
Proof. destruct s; reflexivity. Qed.

Lemma re_sub_runs_head (cls : ascii -> bool) (rep : ascii) (s : string) :
  forall c,
    first_char (PyStr.re_sub_runs cls rep (String c s))
    = Some (if cls c then rep else c).
Proof.
  induction s as [|c' s IH]; intros c; rewrite re_sub_runs_cons.
  - destruct (cls c); reflexivity.
  - destruct (cls c) eqn:Ec; [| reflexivity].
    destruct (cls c') eqn:Ec'; [| reflexivity].
    rewrite (IH c'), Ec'. reflexivity.
Qed.

Lemma no_adjacent_cons (P : ascii -> bool) (c : ascii) (s : string) :
  no_adjacent P (String c s)
  = match first_char s with
    | Some b => negb (P c && P b) && no_adjacent P s
    | None => true
    end.
Proof. destruct s; reflexivity. Qed.

Lemma no_adjacent_tail (P : ascii -> bool) (c : ascii) (s : string) :
  no_adjacent P (String c s) = true -> no_adjacent P s = true.
Proof.
  rewrite no_adjacent_cons. destruct s as [|b s]; [reflexivity |].
  cbn [first_char]. intros H. apply andb_prop in H. apply H.
Qed.

(** The runs of a class are gone after the substitution, when the
    replacement is in the class itself. *)
Lemma re_sub_runs_no_adjacent (cls : ascii -> bool) (rep : ascii) (s : string) :
  cls rep = true -> no_adjacent cls (PyStr.re_sub_runs cls rep s) = true.
Proof.
  intros Hrep. induction s as [|c s IH]; [reflexivity |].
  rewrite re_sub_runs_cons.
  destruct (cls c) eqn:Ec.
  - destruct s as [|c' s']; [reflexivity |].
    destruct (cls c') eqn:Ec'; [exact IH |].
    rewrite no_adjacent_cons, re_sub_runs_head, Ec', Ec', IH.
    rewrite andb_false_r. reflexivity.
  - rewrite no_adjacent_cons.
    destruct (first_char (PyStr.re_sub_runs cls rep s)); [| reflexivity].
    rewrite Ec, IH. reflexivity.
Qed.

(** A character of the class that is left after the substitution is the
    replacement. *)
Lemma re_sub_runs_class (cls : ascii -> bool) (rep : ascii) (s : string) :
  all_chars (fun a => negb (cls a) || Ascii.eqb a rep)
    (PyStr.re_sub_runs cls rep s) = true.
Proof.
  induction s as [|c s IH]; [reflexivity |].
  rewrite re_sub_runs_cons.
  destruct (cls c) eqn:Ec.
  - destruct s as [|c' s'].
    + cbn [all_chars]. rewrite Ascii.eqb_refl, orb_true_r. reflexivity.
    + destruct (cls c') eqn:Ec'; [exact IH |].
      cbn [all_chars]. rewrite Ascii.eqb_refl, orb_true_r. exact IH.
  - cbn [all_chars]. rewrite Ec. exact IH.
Qed.

(** The substitution for one class does not bring together two characters
    of another class that were apart. *)
Lemma re_sub_runs_keeps_apart (P cls : ascii -> bool) (rep : ascii) :
  (forall a, P a = true -> cls a = false) -> P rep = false ->
  forall s,
    no_adjacent P s = true ->
    no_adjacent P (PyStr.re_sub_runs cls rep s) = true.
Proof.
  intros Hdis Hrep. induction s as [|c s IH]; intros H; [reflexivity |].
  pose proof (no_adjacent_tail P c s H) as Ht.
  rewrite re_sub_runs_cons.
  destruct (cls c) eqn:Ec.
  - destruct s as [|c' s']; [reflexivity |].
    destruct (cls c') eqn:Ec'; [exact (IH Ht) |].
    rewrite no_adjacent_cons, re_sub_runs_head, Ec', Hrep, (IH Ht).
    reflexivity.
  - rewrite no_adjacent_cons.
    destruct s as [|c' s']; [reflexivity |].
    rewrite re_sub_runs_head, (IH Ht), andb_true_r.
    destruct (cls c') eqn:Ec'.
    + rewrite Hrep, andb_false_r. reflexivity.
    + rewrite no_adjacent_cons in H. cbn [first_char] in H.
      apply andb_prop in H. apply H.
Qed.

Lemma all_chars_impl (P Q : ascii -> bool) (s : string) :
  (forall a, P a = true -> Q a = true) ->
  all_chars P s = true -> all_chars Q s = true.
Proof.
  intros HPQ. induction s as [|c s IH]; [reflexivity |].
  cbn [all_chars]. intros H. apply andb_prop in H. destruct H as [H1 H2].
  rewrite (HPQ c H1), (IH H2). reflexivity.
Qed.

Lemma lstrip_no_adjacent (P : ascii -> bool) (s : string) :
  no_adjacent P s = true -> no_adjacent P (PyStr.lstrip s) = true.
Proof.
  induction s as [|c s IH]; [reflexivity |].
  intros H. cbn [PyStr.lstrip]. destruct (PyStr.isspace c); [| exact H].
  apply IH. exact (no_adjacent_tail P c s H).
Qed.

Lemma lstrip_all_chars (P : ascii -> bool) (s : string) :
  all_chars P s = true -> all_chars P (PyStr.lstrip s) = true.
Proof.
  induction s as [|c s IH]; [reflexivity |].
  intros H. cbn [PyStr.lstrip]. destruct (PyStr.isspace c); [| exact H].
  apply IH. cbn [all_chars] in H. apply andb_prop in H. apply H.
Qed.

Lemma lstrip_first (s : string) (a : ascii) :
  first_char (PyStr.lstrip s) = Some a -> PyStr.isspace a = false.
Proof.
  induction s as [|c s IH]; [discriminate |].
  cbn [PyStr.lstrip]. destruct (PyStr.isspace c) eqn:Ec; [exact IH |].
  cbn [first_char]. intros H. injection H as <-. exact Ec.
Qed.

Lemma rstrip_cons (c : ascii) (s : string) :
  PyStr.rstrip (String c s)
  = match PyStr.rstrip s with
    | EmptyString =>
        if PyStr.isspace c then EmptyString else String c EmptyString
    | String b r => String c (String b r)
    end.
Proof. cbn [PyStr.rstrip]. destruct (PyStr.rstrip s); reflexivity. Qed.

Lemma rstrip_head (s : string) (b : ascii) (r : string) :
  PyStr.rstrip s = String b r -> first_char s = Some b.
Proof.
  destruct s as [|c s]; [discriminate |].
  rewrite rstrip_cons.
  destruct (PyStr.rstrip s) as [|b' r'].
  - destruct (PyStr.isspace c); [discriminate |].
    intros H. injection H as <- _. reflexivity.
  - intros H. injection H as <- _. reflexivity.
Qed.

Lemma rstrip_no_adjacent (P : ascii -> bool) (s : string) :
  no_adjacent P s = true -> no_adjacent P (PyStr.rstrip s) = true.
Proof.
  induction s as [|c s IH]; [reflexivity |].
  intros H. pose proof (no_adjacent_tail P c s H) as Ht.
  rewrite rstrip_cons.
  destruct (PyStr.rstrip s) as [|b r] eqn:Er.
  - destruct (PyStr.isspace c); reflexivity.
  - rewrite no_adjacent_cons. cbn [first_char]. rewrite (IH Ht), andb_true_r.
    rewrite no_adjacent_cons, (rstrip_head s b r Er) in H.
    apply andb_prop in H. apply H.
Qed.

Lemma rstrip_all_chars (P : ascii -> bool) (s : string) :
  all_chars P s = true -> all_chars P (PyStr.rstrip s) = true.
Proof.
  induction s as [|c s IH]; [reflexivity |].
  cbn [all_chars]. intros H. apply andb_prop in H. destruct H as [H1 H2].
  rewrite rstrip_cons. specialize (IH H2).
  destruct (PyStr.rstrip s) as [|b r].
  - destruct (PyStr.isspace c); [reflexivity |].
    cbn [all_chars]. rewrite H1. reflexivity.
  - change (all_chars P (String c (String b r)))
      with (P c && all_chars P (String b r)).
    rewrite H1, IH. reflexivity.
Qed.

Lemma rstrip_last (s : string) (a : ascii) :
  last_char (PyStr.rstrip s) = Some a -> PyStr.isspace a = false.
Proof.
  induction s as [|c s IH]; [discriminate |].
  rewrite rstrip_cons.
  destruct (PyStr.rstrip s) as [|b r].
  - destruct (PyStr.isspace c) eqn:Ec; [discriminate |].
    cbn [last_char]. intros H. injection H as <-. exact Ec.
  - exact IH.
Qed.

Lemma rstrip_first (s : string) (c a : ascii) :
  first_char s = Some c -> PyStr.isspace c = false ->
  first_char (PyStr.rstrip s) = Some a -> a = c.
Proof.
  destruct s as [|c' s]; [discriminate |].
  cbn [first_char]. intros H Hc. injection H as ->.
  rewrite rstrip_cons.
  destruct (PyStr.rstrip s) as [|b r].
  - rewrite Hc. cbn [first_char]. congruence.
  - cbn [first_char]. congruence.
Qed.

Lemma strip_first (s : string) (a : ascii) :
  first_char (PyStr.strip s) = Some a -> PyStr.isspace a = false.
Proof.
  unfold PyStr.strip. intros H.
  destruct (first_char (PyStr.lstrip s)) as [c |] eqn:Ec.
  - pose proof (lstrip_first s c Ec) as Hc.
    rewrite (rstrip_first _ c a Ec Hc H). exact Hc.
  - destruct (PyStr.lstrip s); [discriminate H | discriminate Ec].
Qed.

Lemma is_newline_not_blank (a : ascii) :
  is_newline a = true -> is_tab_or_space a = false.
Proof.
  unfold is_newline, is_tab_or_space. intros H.
  apply Nat.eqb_eq in H. rewrite H. reflexivity.
Qed.

Lemma cleaned_text_no_tab (page_text : string) :
  all_chars (fun a => negb (is_tab a)) (cleaned_text page_text) = true.
Proof.
  unfold cleaned_text, PyStr.strip.
  apply rstrip_all_chars, lstrip_all_chars.
  apply (all_chars_impl
           (fun a => negb (is_tab_or_space a) || Ascii.eqb a " "%char)).
  - intros a H. unfold is_tab_or_space, is_tab in *.
    destruct (Nat.eqb_spec (PyStr.code a) 9) as [E9 | _]; [| reflexivity].
    cbn [orb negb] in H. apply Ascii.eqb_eq in H. subst a. discriminate E9.
  - apply re_sub_runs_class.
Qed.

Lemma cleaned_text_no_runs (page_text : string) :
  no_adjacent is_tab_or_space (cleaned_text page_text) = true
  /\ no_adjacent is_newline (cleaned_text page_text) = true.
Proof.
  unfold cleaned_text, PyStr.strip. split.
  - apply rstrip_no_adjacent, lstrip_no_adjacent.
    apply re_sub_runs_no_adjacent. reflexivity.
  - apply rstrip_no_adjacent, lstrip_no_adjacent.
    apply re_sub_runs_keeps_apart;
      [exact is_newline_not_blank | reflexivity |].
    apply re_sub_runs_no_adjacent. reflexivity.
Qed.

Lemma cleaned_text_stripped (page_text : string) (a : ascii) :
  first_char (cleaned_text page_text) = Some a
  \/ last_char (cleaned_text page_text) = Some a ->
  PyStr.isspace a = false.
Proof.
  unfold cleaned_text. intros [H | H].
  - exact (strip_first _ a H).
  - exact (rstrip_last _ a H).
Qed.

(** X1: the cleaned text has no tab, no two blanks in a row, no two
    newlines in a row, and no white space at either end. *)
Theorem cleaned_text_shape (page_text : string) :
  let cleaned := cleaned_text page_text in
  all_chars (fun a => negb (is_tab a)) cleaned = true
  /\ no_adjacent is_tab_or_space cleaned = true
  /\ no_adjacent is_newline cleaned = true
  /\ (forall a, first_char cleaned = Some a -> PyStr.isspace a = false)
  /\ (forall a, last_char cleaned = Some a -> PyStr.isspace a = false).
Proof.
  cbv zeta.
  destruct (cleaned_text_no_runs page_text) as [Hblank Hnl].
  split; [apply cleaned_text_no_tab |].
  split; [exact Hblank |].
  split; [exact Hnl |].
  split; intros a Ha.
  - apply (cleaned_text_stripped page_text a). left. exact Ha.
  - apply (cleaned_text_stripped page_text a). right. exact Ha.
Qed.

Lemma re_sub_runs_length (cls : ascii -> bool) (rep : ascii) (s : string) :
  String.length (PyStr.re_sub_runs cls rep s) <= String.length s.
Proof.
  induction s as [|c s IH]; [reflexivity |].
  rewrite re_sub_runs_cons.
  destruct (cls c).
  - destruct s as [|c' s']; [reflexivity |].
    destruct (cls c'); cbn [String.length] in *; lia.
  - cbn [String.length]. lia.
Qed.

Lemma lstrip_length (s : string) :
  String.length (PyStr.lstrip s) <= String.length s.
Proof.
  induction s as [|c s IH]; [reflexivity |].
  cbn [PyStr.lstrip]. destruct (PyStr.isspace c); cbn [String.length]; lia.
Qed.

Lemma rstrip_length (s : string) :
  String.length (PyStr.rstrip s) <= String.length s.
Proof.
  induction s as [|c s IH]; [reflexivity |].
  rewrite rstrip_cons.
  destruct (PyStr.rstrip s) as [|b r].
  - destruct (PyStr.isspace c); cbn [String.length]; lia.
  - cbn [String.length] in *. lia.
Qed.

Lemma cleaned_text_length (page_text : string) :
  String.length (cleaned_text page_text) <= String.length page_text.
Proof.
  unfold cleaned_text, PyStr.strip.
  eapply Nat.le_trans; [apply rstrip_length |].
  eapply Nat.le_trans; [apply lstrip_length |].
  eapply Nat.le_trans; [apply re_sub_runs_length |].
  apply re_sub_runs_length.
Qed.

(** X2: cleaning never makes a text longer, and whatever the input, the
    text [clean_document] returns has at most 3001 characters and at most
    one character more than the input. *)
Theorem clean_document_length_bound (page_text : string) :
  String.length (cleaned_text page_text) <= String.length page_text
  /\ String.length (clean_document page_text) <= 3001
  /\ String.length (clean_document page_text) <= String.length page_text + 1.
Proof.
  pose proof (cleaned_text_length page_text) as Hc.
  split; [exact Hc |].
  destruct (Nat.lt_ge_cases (String.length (cleaned_text page_text))
              DOC_MAX_LENGTH) as [Hlt | Hge].
  - rewrite (clean_document_short page_text Hlt).
    rewrite DOC_MAX_LENGTH_eq in Hlt. lia.
  - rewrite (clean_document_long page_text Hge), !PyStrFacts.length_app.
    rewrite DOC_MAX_LENGTH_eq in Hge |- *.
    rewrite PyStrFacts.length_slice_to, PyStrFacts.length_slice_last by lia.
    change (String.length " ") with 1. lia.
Qed.

(** A text without runs of a class, whose characters of the class are the
    replacement, is left as it is by the substitution. *)
Lemma re_sub_runs_fixed (cls : ascii -> bool) (rep : ascii) (s : string) :
  no_adjacent cls s = true ->
  all_chars (fun a => negb (cls a) || Ascii.eqb a rep) s = true ->
  PyStr.re_sub_runs cls rep s = s.
Proof.
  induction s as [|c s IH]; [reflexivity |].
  intros Hn Ha. pose proof (no_adjacent_tail cls c s Hn) as Ht.
  cbn [all_chars] in Ha. apply andb_prop in Ha. destruct Ha as [Hc Ha].
  rewrite re_sub_runs_cons, (IH Ht Ha).
  destruct (cls c) eqn:Ec; [| reflexivity].
  cbn [negb orb] in Hc. apply Ascii.eqb_eq in Hc. subst rep.
  destruct s as [|c' s']; [reflexivity |].
  rewrite no_adjacent_cons in Hn. cbn [first_char] in Hn.
  rewrite Ec in Hn. cbn [andb] in Hn.
  destruct (cls c'); [discriminate Hn | reflexivity].
Qed.

Lemma lstrip_fixed (s : string) :
  (forall a, first_char s = Some a -> PyStr.isspace a = false) ->
  PyStr.lstrip s = s.
Proof.
  destruct s as [|c s]; [reflexivity |].
  intros H. cbn [PyStr.lstrip]. rewrite (H c eq_refl). reflexivity.
Qed.

Lemma rstrip_fixed (s : string) :
  (forall a, last_char s = Some a -> PyStr.isspace a = false) ->
  PyStr.rstrip s = s.
Proof.
  induction s as [|c s IH]; [reflexivity |].
  intros H. rewrite rstrip_cons.
  destruct s as [|b s'].
  - cbn [PyStr.rstrip]. rewrite (H c eq_refl). reflexivity.
  - rewrite IH; [reflexivity |].
    intros a Ha. apply H. exact Ha.
Qed.

Lemma code_inj (a b : ascii) : PyStr.code a = PyStr.code b -> a = b.
Proof.
  unfold PyStr.code. intros H.
  rewrite <- (ascii_nat_embedding a), <- (ascii_nat_embedding b), H.
  reflexivity.
Qed.

(** X3: cleaning is idempotent: a cleaned text is its own cleaned text. *)
Theorem cleaned_text_idempotent (page_text : string) :
  cleaned_text (cleaned_text page_text) = cleaned_text page_text.
Proof.
  pose proof (cleaned_text_no_tab page_text) as Htab.
  destruct (cleaned_text_no_runs page_text) as [Hblank Hnl].
  assert (Hf : forall a, first_char (cleaned_text page_text) = Some a ->
                         PyStr.isspace a = false)
    by (intros a Ha; apply (cleaned_text_stripped page_text a); now left).
  assert (Hl : forall a, last_char (cleaned_text page_text) = Some a ->
                         PyStr.isspace a = false)
    by (intros a Ha; apply (cleaned_text_stripped page_text a); now right).
  set (c := cleaned_text page_text) in *.
  unfold cleaned_text at 1.
  assert (E1 : PyStr.re_sub_runs is_newline "010"%char c = c).
  { apply re_sub_runs_fixed; [exact Hnl |].
    apply (all_chars_impl (fun _ => true)).
    - intros a _. destruct (is_newline a) eqn:Ea; [| reflexivity].
      cbn [negb orb]. apply Ascii.eqb_eq, code_inj.
      unfold is_newline in Ea. apply Nat.eqb_eq in Ea. rewrite Ea.
      reflexivity.
    - clear. induction c as [|a c IH]; [reflexivity | exact IH]. }
  assert (E2 : PyStr.re_sub_runs is_tab_or_space " "%char c = c).
  { apply re_sub_runs_fixed; [exact Hblank |].
    revert Htab. apply all_chars_impl. intros a Ha.
    unfold is_tab_or_space, is_tab in *.
    destruct (Nat.eqb_spec (PyStr.code a) 9) as [E9 | _]; [discriminate Ha |].
    destruct (Nat.eqb_spec (PyStr.code a) 32) as [E32 | _]; [| reflexivity].
    cbn [negb orb]. apply Ascii.eqb_eq, code_inj. rewrite E32. reflexivity. }
  rewrite E1, E2. unfold PyStr.strip.
  rewrite (lstrip_fixed c Hf). apply rstrip_fixed. exact Hl.
Qed.

(** ** Upserts and lookups *)

(** X4: after an upsert the first result with the upserted id is the
    upserted one, and the first result with any other id is the one it was:
    lookup by id sees the upsert and nothing else. *)
Theorem find_result_upsert (JSON : Type) (store : list (Result JSON))
    (r : Result JSON) (k : Z) :
  find_result (id r) (upsert_result store r) = Some r
  /\ (k <> id r ->
      find_result k (upsert_result store r) = find_result k store).
Proof.
  unfold find_result. split.
  - induction store as [|x store IH]; cbn [upsert_result find].
    + rewrite Z.eqb_refl. reflexivity.
    + destruct (Z.eqb_spec (id x) (id r)) as [E | NE]; cbn [negb find].
      * rewrite Z.eqb_refl. reflexivity.
      * destruct (Z.eqb_spec (id x) (id r)); [contradiction | exact IH].
  - intros Hk. induction store as [|x store IH]; cbn [upsert_result find].
    + destruct (Z.eqb_spec (id r) k); [congruence | reflexivity].
    + destruct (Z.eqb_spec (id x) (id r)) as [E | NE]; cbn [negb find].
      * destruct (Z.eqb_spec (id r) k); [congruence |].
        destruct (Z.eqb_spec (id x) k); [congruence | reflexivity].
      * destruct (Z.eqb_spec (id x) k); [reflexivity | exact IH].
Qed.

Lemma find_result_upsert_witness :
  find_result 7
    (upsert_result [sample_result 4 "a"; sample_result 7 "b"]
       (sample_result 9 "c"))
  = Some (sample_result 7 "b").
Proof.
  apply (find_result_upsert unit [sample_result 4 "a"; sample_result 7 "b"]
           (sample_result 9 "c") 7%Z).
  simpl. lia.
Defined.

(** X5: an upsert changes the length of the store by one when the id is
    new and not at all when it is there; the ids keep their order, a new id
    going to the end; and upserting the same result again changes nothing. *)
Theorem upsert_ids_and_length (JSON : Type) (store : list (Result JSON))
    (r : Result JSON) :
  (In (id r) (map id store) ->
   map id (upsert_result store r) = map id store
   /\ length (upsert_result store r) = length store)
  /\ (~ In (id r) (map id store) ->
      upsert_result store r = (store ++ [r])%list
      /\ length (upsert_result store r) = S (length store))
  /\ upsert_result (upsert_result store r) r = upsert_result store r.
Proof.
  split; [| split].
  - intros HIn.
    assert (E : map id (upsert_result store r) = map id store).
    { rewrite upsert_ids.
      destruct (in_dec Z.eq_dec (id r) (map id store)); [reflexivity |].
      contradiction. }
    split; [exact E |].
    rewrite <- (length_map id (upsert_result store r)), E. apply length_map.
  - intros HNot. rewrite (upsert_absent JSON store r HNot).
    split; [reflexivity |]. rewrite length_app. simpl. lia.
  - induction store as [|x store IH]; cbn [upsert_result].
    + rewrite Z.eqb_refl. reflexivity.
    + destruct (Z.eqb_spec (id x) (id r)) as [E | NE]; cbn [negb upsert_result].
      * rewrite Z.eqb_refl. reflexivity.
      * destruct (Z.eqb_spec (id x) (id r)); [contradiction |].
        cbn [negb]. rewrite IH. reflexivity.
Qed.

Lemma upsert_ids_and_length_witness :
  upsert_result [sample_result 4 "a"; sample_result 7 "b"]
    (sample_result 9 "c")
  = [sample_result 4 "a"; sample_result 7 "b"; sample_result 9 "c"].
Proof.
  destruct (upsert_ids_and_length unit
              [sample_result 4 "a"; sample_result 7 "b"]
              (sample_result 9 "c")) as (_ & H & _).
  apply H. simpl. intuition lia.
Defined.

(** ** The other ends of the classifier *)

Section ClassifierEnds.

Variable Chat : Type.
Variable ask : Chat -> string -> option string * Chat.
Variable JSON : Type.
Variable json_loads : string -> option JSON.

Implicit Types (st : LoopState JSON) (chat : Chat) (page_data : Document).

(** X6: a reply that is the rate-limit sentinel once stripped (and that the
    two tests before do not catch), after at most four degraded replies, is
    followed by a sleep of one hour and then by the fatal
    [BadStateException]; nothing is saved for the document and the loop of
    [run] stops there. *)
Theorem rate_limited_reply_sleeps_then_aborts schema continue_at st page_data
    (rest : list Document) chat (replies : list string) (reply : string) :
  let current_prompt := build_prompt (doc_text page_data) schema in
  let chat' := session_after ask chat current_prompt (S (length replies)) in
  let tr := (pacing st ++ backoff current_prompt 0%Z (length replies)
               ++ [EvAsk current_prompt; EvSleep 3600%Z])%list in
  is_skipped continue_at page_data = false ->
  Forall (fun r => is_degraded r = true) replies ->
  answers ask chat current_prompt (replies ++ [reply]) ->
  length replies <= 4 ->
  is_degraded reply = false ->
  is_refusal reply = false ->
  is_rate_limited reply = true ->
  process_document ask json_loads schema continue_at st page_data chat
  = (Raise (BadStateException "Hour is over, restart!"), chat', tr)
  /\ run_documents ask json_loads schema continue_at st (page_data :: rest)
       chat
     = (Raise (BadStateException "Hour is over, restart!"), chat', tr).
Proof.
  intros current_prompt chat' tr Hskip Hdeg Hans Hle Hd Hr Hl.
  assert (E : process_document ask json_loads schema continue_at st page_data
                chat
              = (Raise (BadStateException "Hour is over, restart!"), chat',
                 tr)).
  { rewrite (process_document_last Chat ask JSON json_loads _ _ _ _ _ _ _
               Hskip Hdeg Hans Hle Hd).
    unfold verdict. rewrite Hr, Hl. cbn [after_events].
    unfold tr. rewrite <- !app_assoc. reflexivity. }
  split; [exact E |].
  rewrite run_documents_cons, E. reflexivity.
Qed.

(** X7: when the session times out on a request (the first one or one after
    up to five degraded replies), [TimeoutException] leaves the loop of
    [run] at once: nothing is saved for the document and no later document
    is touched. *)
Theorem timeout_leaves_the_run schema continue_at st page_data
    (rest : list Document) chat (replies : list string) :
  let current_prompt := build_prompt (doc_text page_data) schema in
  let chat' := session_after ask chat current_prompt (S (length replies)) in
  let tr := (pacing st ++ backoff current_prompt 0%Z (length replies)
               ++ [EvAsk current_prompt])%list in
  is_skipped continue_at page_data = false ->
  Forall (fun r => is_degraded r = true) replies ->
  answers ask chat current_prompt replies ->
  length replies <= 5 ->
  fst (ask (session_after ask chat current_prompt (length replies))
         current_prompt) = None ->
  process_document ask json_loads schema continue_at st page_data chat
  = (Raise TimeoutException, chat', tr)
  /\ run_documents ask json_loads schema continue_at st (page_data :: rest)
       chat
     = (Raise TimeoutException, chat', tr).
Proof.
  intros current_prompt chat' tr Hskip Hdeg Hans Hle Hask.
  assert (Es : scrape_via_prompt (JSON:=JSON) ask (doc_text page_data) schema
                 chat
               = (Raise TimeoutException, chat',
                  (backoff current_prompt 0%Z (length replies)
                     ++ [EvAsk current_prompt])%list)).
  { rewrite scrape_via_prompt_unfold. fold current_prompt.
    assert (HF : scrape_fuel = length replies + S (5 - length replies))
      by (unfold scrape_fuel; lia).
    rewrite HF.
    rewrite (scrape_loop_degraded_prefix Chat ask JSON replies
               (S (5 - length replies)) current_prompt 0%Z chat Hdeg Hans)
      by lia.
    rewrite scrape_loop_unfold.
    unfold chat'. rewrite (session_after_S Chat ask chat current_prompt).
    destruct (ask (session_after ask chat current_prompt (length replies))
                current_prompt) as [o c].
    cbn [fst] in Hask. subst o. reflexivity. }
  assert (E : process_document ask json_loads schema continue_at st page_data
                chat = (Raise TimeoutException, chat', tr)).
  { rewrite (process_document_active Chat ask JSON json_loads _ _ _ _ _ Hskip).
    fold current_prompt in Es. rewrite Es. reflexivity. }
  split; [exact E |].
  rewrite run_documents_cons, E. reflexivity.
Qed.

Lemma asked_app (tr1 tr2 : list (event JSON)) :
  asked (tr1 ++ tr2) = (asked tr1 ++ asked tr2)%list.
Proof. apply flat_map_app. Qed.

Lemma saves_app (tr1 tr2 : list (event JSON)) :
  saves (tr1 ++ tr2) = (saves tr1 ++ saves tr2)%list.
Proof. apply flat_map_app. Qed.

Lemma slept_app (tr1 tr2 : list (event JSON)) :
  slept (tr1 ++ tr2) = (slept tr1 + slept tr2)%Z.
Proof.
  induction tr1 as [|e tr1 IH]; [reflexivity |].
  cbn [app slept fold_right]. fold (slept (tr1 ++ tr2)). fold (slept tr1).
  rewrite IH. destruct e; lia.
Qed.

Ltac effort_leaf :=
  cbn [snd asked saves slept flat_map fold_right app length];
  split; [lia | split; [repeat constructor | split; [lia | reflexivity]]].

(** What the loop can still cost once the counter is at [waited]. *)
Lemma scrape_loop_effort (current_prompt : string) (fuel : nat) :
  forall (waited : Z) chat,
    (0 <= waited)%Z ->
    let tr := snd (scrape_loop (JSON:=JSON) ask fuel current_prompt waited
                     chat) in
    (Z.of_nat (length (asked tr)) <= Z.max 1 (6 - waited))%Z
    /\ Forall (eq current_prompt) (asked tr)
    /\ (0 <= slept tr <= Z.max 0 (4800 - 60 * waited * (waited + 1)))%Z
    /\ saves tr = [].
Proof.
  induction fuel as [|fuel IH]; intros waited chat Hw; cbv zeta.
  - unfold scrape_loop, out_of_fuel. effort_leaf.
  - rewrite scrape_loop_unfold.
    destruct (ask chat current_prompt) as [[reply |] chat']; [| effort_leaf].
    destruct (Z.ltb_spec 5 (waited + 1)) as [Hgt | Hle]; [effort_leaf |].
    destruct (is_degraded reply).
    + rewrite after_events_trace.
      destruct (IH (waited + 1)%Z chat' ltac:(lia)) as (H1 & H2 & H3 & H4).
      cbv zeta in H1, H2, H3, H4.
      rewrite asked_app, slept_app, saves_app, H4.
      cbn [asked flat_map app length slept fold_right saves].
      split; [| split; [| split; [| reflexivity]]].
      * rewrite Nat2Z.inj_succ. lia.
      * constructor; [reflexivity | exact H2].
      * nia.
    + assert (H60 : (60 * waited * (waited + 1) <= 1200)%Z) by nia.
      destruct (is_refusal reply);
        [| destruct (is_rate_limited reply);
           [| destruct (has_closing_brace reply)]]; effort_leaf.
Qed.

Lemma scrape_via_prompt_saves_nothing (page_text schema : string) chat :
  saves (snd (scrape_via_prompt (JSON:=JSON) ask page_text schema chat)) = [].
Proof.
  rewrite scrape_via_prompt_unfold.
  destruct (scrape_loop_effort (build_prompt page_text schema) scrape_fuel
              0%Z chat ltac:(lia)) as (_ & _ & _ & H).
  cbv zeta in H.
  destruct (scrape_loop (JSON:=JSON) ask scrape_fuel
              (build_prompt page_text schema) 0%Z chat) as [[[a | e |] c] t];
    exact H.
Qed.

(** X8: whatever the session answers, one call of [scrape_via_prompt]
    makes at least one and at most six requests, all of them with the prompt
    built for the document, sleeps at most 4800 seconds in all, and saves
    nothing. *)
Theorem scrape_via_prompt_effort (page_text schema : string) chat :
  let tr := snd (scrape_via_prompt (JSON:=JSON) ask page_text schema chat) in
  1 <= length (asked tr) <= 6
  /\ Forall (eq (build_prompt page_text schema)) (asked tr)
  /\ (0 <= slept tr <= 4800)%Z
  /\ saves tr = [].
Proof.
  cbv zeta. rewrite scrape_via_prompt_unfold.
  destruct (scrape_loop_effort (build_prompt page_text schema) scrape_fuel
              0%Z chat ltac:(lia)) as (H1 & H2 & H3 & H4).
  cbv zeta in H1, H2, H3, H4.
  assert (H0 : 1 <= length
                      (asked (snd (scrape_loop (JSON:=JSON) ask scrape_fuel
                                     (build_prompt page_text schema) 0%Z
                                     chat)))).
  { unfold scrape_fuel. rewrite scrape_loop_unfold.
    destruct (ask chat (build_prompt page_text schema)) as [[reply |] chat'];
      [| cbn; lia].
    destruct (5 <? 0 + 1)%Z; [cbn; lia |].
    destruct (is_degraded reply).
    - rewrite after_events_trace, asked_app. cbn. lia.
    - destruct (is_refusal reply);
        [| destruct (is_rate_limited reply);
           [| destruct (has_closing_brace reply)]]; cbn; lia. }
  destruct (scrape_loop (JSON:=JSON) ask scrape_fuel
              (build_prompt page_text schema) 0%Z chat) as [[[a | e |] c] t];
    cbn [snd] in *; (split; [lia | split; [exact H2 | split; [lia | exact H4]]]).
Qed.

End ClassifierEnds.

(** ** What a run does to the store *)

Section StoreOfARun.

Variable Chat : Type.
Variable ask : Chat -> string -> option string * Chat.
Variable JSON : Type.
Variable json_loads : string -> option JSON.

Implicit Types (st : LoopState JSON) (chat : Chat) (page_data : Document).

(** One iteration either leaves the results and saves nothing (the document
    is skipped, or an exception ends the iteration), or upserts one result
    with the id of the document and saves the results once. *)
Lemma process_document_cases schema continue_at st page_data chat :
  match process_document ask json_loads schema continue_at st page_data
          chat with
  | (Ret st', _, tr) =>
      first_scrape st' = first_scrape st
      /\ ((is_skipped continue_at page_data = true
           /\ results st' = results st /\ saves tr = [])
          \/ (is_skipped continue_at page_data = false
              /\ exists r, id r = doc_id page_data
                           /\ results st' = upsert_result (results st) r
                           /\ saves tr = [results st']))
  | (_, _, tr) => saves tr = []
  end.
Proof.
  destruct (is_skipped continue_at page_data) eqn:Hs.
  - rewrite (process_document_skipped Chat ask JSON json_loads _ _ _ _ _ Hs).
    split; [reflexivity | left; auto].
  - rewrite (process_document_active Chat ask JSON json_loads _ _ _ _ _ Hs).
    pose proof (scrape_via_prompt_saves_nothing Chat ask JSON
                  (doc_text page_data) schema chat) as Hsv.
    assert (Hp : saves (pacing st) = [])
      by (unfold pacing; destruct (negb (first_scrape st)); reflexivity).
    destruct (scrape_via_prompt (JSON:=JSON) ask (doc_text page_data) schema
                chat) as [[[pr | e |] c] t]; cbn [snd] in Hsv;
      cbn [after_events]; rewrite ?saves_app, ?Hp, ?Hsv.
    + cbv zeta. split; [reflexivity | right].
      split; [reflexivity |].
      exists (recorded json_loads page_data pr).
      split; [reflexivity | split; reflexivity].
    + reflexivity.
    + reflexivity.
Qed.

Lemma last_cons_default (A : Type) (l : list A) :
  forall a d : A, last (a :: l) d = last l a.
Proof.
  induction l as [|b l IH]; intros a d; [reflexivity |].
  change (last (a :: b :: l) d) with (last (b :: l) d).
  rewrite (IH b d), (IH b a). reflexivity.
Qed.

Lemma last_app_default (A : Type) (l1 l2 : list A) :
  forall d : A, last (l1 ++ l2) d = last l2 (last l1 d).
Proof.
  induction l1 as [|a l1 IH]; intros d; [reflexivity |].
  change ((a :: l1) ++ l2)%list with (a :: (l1 ++ l2))%list.
  rewrite !last_cons_default. apply IH.
Qed.

Lemma run_documents_last_saved schema continue_at
    (documents : list Document) :
  forall st chat st' chat' tr,
    run_documents ask json_loads schema continue_at st documents chat
    = (Ret st', chat', tr) ->
    last_saved (results st) tr = results st'.
Proof.
  induction documents as [|d documents IH]; intros st chat st' chat' tr H.
  - cbn in H. injection H as <- _ <-. reflexivity.
  - rewrite run_documents_cons in H.
    pose proof (process_document_cases schema continue_at st d chat) as Hc.
    destruct (process_document ask json_loads schema continue_at st d chat)
      as [[[st1 | e |] chat1] tr1]; try discriminate H.
    destruct (run_documents ask json_loads schema continue_at st1 documents
                chat1) as [[r2 chat2] tr2] eqn:E2.
    cbn [after_events] in H. injection H as -> <- <-.
    specialize (IH st1 chat1 st' chat2 tr2 E2).
    unfold last_saved in *. rewrite saves_app, last_app_default.
    destruct Hc as [_ [(_ & Hr & Hs) | (_ & r & _ & Hr & Hs)]]; rewrite Hs.
    + cbn [last]. rewrite <- Hr. exact IH.
    + cbn [last]. exact IH.
Qed.

(** X9: when a run ends normally, the results it returns are the ones of
    its last save, so the output file holds them; a run that saved nothing
    returns the stored results as they were. *)
Theorem run_returns_what_it_saved documents schema stored headless
    continue_at continue_last chat final chat' tr :
  run ask json_loads documents schema stored headless continue_at
    continue_last chat = (Ret final, chat', tr) ->
  last_saved stored tr = final.
Proof.
  assert (He : forall ca,
             run ask json_loads documents schema stored headless ca false chat
             = (Ret final, chat', tr) ->
             last_saved stored tr = final).
  { intros ca. rewrite run_explicit.
    destruct (run_documents ask json_loads schema ca (mkLoop true stored)
                documents chat) as [[[st | e |] c] t] eqn:E;
      cbn [after_events]; intros H; try discriminate H.
    injection H as <- _ <-.
    pose proof (run_documents_last_saved _ _ _ _ _ _ _ _ E) as Hl.
    cbn [results] in Hl. unfold last_saved in *.
    destruct headless; exact Hl. }
  destruct continue_last; [| apply He].
  destruct (py_max (nodup Z.eq_dec (map id stored))) as [m |] eqn:Em.
  - rewrite (run_continue_last Chat ask JSON json_loads _ _ _ _ _ _ m Em).
    apply He.
  - apply py_max_none in Em. subst stored.
    rewrite run_continue_last_empty. discriminate.
Qed.

Lemma grown_from_refl (allowed : list Z) (rs : list (Result JSON)) :
  grown_from allowed rs rs.
Proof.
  exists []. split; [now rewrite app_nil_r | split; [intros x [] | auto]].
Qed.

Lemma grown_from_trans (a1 a2 allowed : list Z)
    (rs1 rs2 rs3 : list (Result JSON)) :
  incl a1 allowed -> incl a2 allowed ->
  grown_from a1 rs1 rs2 -> grown_from a2 rs2 rs3 ->
  grown_from allowed rs1 rs3.
Proof.
  intros H1 H2 (n1 & E1 & I1 & U1) (n2 & E2 & I2 & U2).
  exists (n1 ++ n2)%list. split; [| split].
  - rewrite E2, E1, app_assoc. reflexivity.
  - apply incl_app; eapply incl_tran; eassumption.
  - auto.
Qed.

Lemma grown_from_upsert (rs : list (Result JSON)) (r : Result JSON) :
  grown_from [id r] rs (upsert_result rs r).
Proof.
  exists (if in_dec Z.eq_dec (id r) (map id rs) then [] else [id r]).
  split; [| split].
  - rewrite upsert_ids.
    destruct (in_dec Z.eq_dec (id r) (map id rs));
      [now rewrite app_nil_r | reflexivity].
  - destruct (in_dec Z.eq_dec (id r) (map id rs));
      [intros x [] | apply incl_refl].
  - apply upsert_preserves_unique.
Qed.

Lemma run_documents_grows schema continue_at (documents : list Document) :
  forall st chat,
    match run_documents ask json_loads schema continue_at st documents
            chat with
    | (r, _, tr) =>
        Forall (grown_from (map doc_id documents) (results st)) (saves tr)
        /\ match r with
           | Ret st' =>
               grown_from (map doc_id documents) (results st) (results st')
           | _ => True
           end
    end.
Proof.
  induction documents as [|d documents IH]; intros st chat.
  - cbn. split; [constructor | apply grown_from_refl].
  - rewrite run_documents_cons.
    pose proof (process_document_cases schema continue_at st d chat) as Hc.
    destruct (process_document ask json_loads schema continue_at st d chat)
      as [[[st1 | e |] chat1] tr1];
      [| rewrite Hc; split; [constructor | exact I] ..].
    specialize (IH st1 chat1).
    destruct (run_documents ask json_loads schema continue_at st1 documents
                chat1) as [[r2 chat2] tr2].
    cbn [after_events]. rewrite saves_app.
    destruct IH as [IH1 IH2].
    assert (Hstep : grown_from [doc_id d] (results st) (results st1)).
    { destruct Hc as [_ [(_ & Hr & _) | (_ & r & Hid & Hr & _)]];
        rewrite Hr; [apply grown_from_refl |].
      rewrite <- Hid. apply grown_from_upsert. }
    assert (Hd : incl [doc_id d] (map doc_id (d :: documents)))
      by (intros x [<- | []]; now left).
    assert (Hds : incl (map doc_id documents) (map doc_id (d :: documents)))
      by (intros x Hx; now right).
    assert (Hg : forall rs,
               grown_from (map doc_id documents) (results st1) rs ->
               grown_from (map doc_id (d :: documents)) (results st) rs).
    { intros rs. apply (grown_from_trans _ _ _ _ _ _ Hd Hds Hstep). }
    split.
    + apply Forall_app. split.
      * destruct Hc as [_ [(_ & _ & Hs) | (_ & r & _ & _ & Hs)]]; rewrite Hs;
          [constructor |].
        constructor; [| constructor].
        apply Hg, grown_from_refl.
      * revert IH1. apply Forall_impl. exact Hg.
    + destruct r2; [apply Hg; exact IH2 | exact I | exact I].
Qed.

Lemma run_grows documents schema stored headless continue_at continue_last
    chat :
  match run ask json_loads documents schema stored headless continue_at
          continue_last chat with
  | (r, _, tr) =>
      Forall (grown_from (map doc_id documents) stored) (saves tr)
      /\ match r with
         | Ret final => grown_from (map doc_id documents) stored final
         | _ => True
         end
  end.
Proof.
  assert (He : forall ca,
             match run ask json_loads documents schema stored headless ca
                     false chat with
             | (r, _, tr) =>
                 Forall (grown_from (map doc_id documents) stored) (saves tr)
                 /\ match r with
                    | Ret final => grown_from (map doc_id documents) stored final
                    | _ => True
                    end
             end).
  { intros ca. rewrite run_explicit.
    pose proof (run_documents_grows schema ca documents (mkLoop true stored)
                  chat) as H.
    destruct (run_documents ask json_loads schema ca (mkLoop true stored)
                documents chat) as [[[st | e |] c] t];
      cbn [after_events results] in *;
      (replace (saves (prelude headless ++ t)) with (saves t)
         by (destruct headless; reflexivity));
      exact H. }
  destruct continue_last; [| apply He].
  destruct (py_max (nodup Z.eq_dec (map id stored))) as [m |] eqn:Em.
  - rewrite (run_continue_last Chat ask JSON json_loads _ _ _ _ _ _ m Em).
    apply He.
  - apply py_max_none in Em. subst stored.
    rewrite run_continue_last_empty.
    split; [destruct headless; constructor | exact I].
Qed.

(** X10: a run never drops or moves a stored id: every snapshot it saves,
    and the results it returns, hold the ids of the stored results in the
    same places, followed by ids of documents of the run; and they have at
    most one result per id when the stored results had. *)
Theorem run_keeps_the_stored_ids documents schema stored headless continue_at
    continue_last chat :
  Forall (grown_from (map doc_id documents) stored)
    (saves (snd (run ask json_loads documents schema stored headless
                   continue_at continue_last chat)))
  /\ (forall final,
         fst (fst (run ask json_loads documents schema stored headless
                     continue_at continue_last chat)) = Ret final ->
         grown_from (map doc_id documents) stored final).
Proof.
  pose proof (run_grows documents schema stored headless continue_at
                continue_last chat) as H.
  destruct (run ask json_loads documents schema stored headless continue_at
              continue_last chat) as [[r c] t].
  cbn [fst snd]. destruct H as [H1 H2].
  split; [exact H1 |].
  intros final ->. exact H2.
Qed.

Lemma run_documents_all_skipped schema continue_at
    (documents : list Document) :
  forall st chat,
    forallb (is_skipped continue_at) documents = true ->
    run_documents ask json_loads schema continue_at st documents chat
    = (Ret st, chat, []).
Proof.
  induction documents as [|d documents IH]; intros st chat H; [reflexivity |].
  cbn [forallb] in H. apply andb_prop in H. destruct H as [Hd Hds].
  rewrite run_documents_cons.
  rewrite (process_document_skipped Chat ask JSON json_loads _ _ _ _ _ Hd).
  rewrite after_events_nil. apply IH. exact Hds.
Qed.

Lemma blank_skipped (blanks : list Document) :
  Forall (fun b => doc_text b = "") blanks ->
  forallb (is_skipped None) blanks = true.
Proof.
  intros H. apply forallb_forall. intros b Hb.
  rewrite Forall_forall in H. unfold is_skipped.
  rewrite (H b Hb). reflexivity.
Qed.

(** X11: a run with no cursor passes over blank documents with no effect.
    When all its documents are blank it returns the stored results after the
    start of the session, with no request and no save; otherwise its first
    request is for the first document that is not blank, whose result is
    upserted into the stored results and saved before the loop goes on. *)
Theorem blank_documents_cost_nothing schema stored headless chat :
  (forall blanks,
      Forall (fun b => doc_text b = "") blanks ->
      run ask json_loads blanks schema stored headless None false chat
      = (Ret stored, chat, prelude headless))
  /\ (forall blanks page_data rest,
         Forall (fun b => doc_text b = "") blanks ->
         doc_text page_data <> "" ->
         run ask json_loads (blanks ++ page_data :: rest) schema stored
           headless None false chat
         = after_events (prelude headless)
             match scrape_via_prompt ask (doc_text page_data) schema chat with
             | (Ret pr, chat', tr) =>
                 let results' :=
                   upsert_result stored (recorded json_loads page_data pr) in
                 after_events (tr ++ [EvSave results'])
                   (finish_run
                      (run_documents ask json_loads schema None
                         (mkLoop true results') rest chat'))
             | (Raise e, chat', tr) => (Raise e, chat', tr)
             | (OutOfFuel, chat', tr) => (OutOfFuel, chat', tr)
             end
         /\ exists tr',
             snd (run ask json_loads (blanks ++ page_data :: rest) schema
                    stored headless None false chat)
             = (prelude headless
                  ++ EvAsk (build_prompt (doc_text page_data) schema) :: tr')%list).
Proof.
  split.
  - intros blanks Hb. rewrite run_with_cursor.
    rewrite (run_documents_all_passed Chat ask JSON json_loads schema None
               blanks _ _ (blank_skipped blanks Hb)).
    cbn [finish_run after_events results]. rewrite app_nil_r. reflexivity.
  - intros blanks page_data rest Hb Ht. rewrite run_with_cursor.
    apply run_from_first_active.
    + exact (blank_skipped blanks Hb).
    + unfold is_skipped.
      destruct (String.eqb_spec (doc_text page_data) "");
        [contradiction | reflexivity].
Qed.

(** The documents a finished loop did not skip have their ids among the
    results. *)
Lemma run_documents_covers schema continue_at (documents : list Document) :
  forall st chat st' chat' tr,
    run_documents ask json_loads schema continue_at st documents chat
    = (Ret st', chat', tr) ->
    forall d, In d documents -> is_skipped continue_at d = false ->
              In (doc_id d) (map id (results st')).
Proof.
  induction documents as [|d0 documents IH];
    intros st chat st' chat' tr H d Hd Hs; [destruct Hd |].
  rewrite run_documents_cons in H.
  pose proof (process_document_cases schema continue_at st d0 chat) as Hc.
  destruct (process_document ask json_loads schema continue_at st d0 chat)
    as [[[st1 | e |] chat1] tr1]; try discriminate H.
  pose proof (run_documents_grows schema continue_at documents st1 chat1)
    as Hg.
  destruct (run_documents ask json_loads schema continue_at st1 documents
              chat1) as [[r2 chat2] tr2] eqn:E2.
  cbn [after_events] in H. injection H as -> <- <-.
  destruct Hd as [<- | Hd].
  - destruct Hg as [_ (new_ids & En & _)]. rewrite En.
    apply in_or_app. left.
    destruct Hc as [_ [(Hs' & _) | (_ & r & Hid & Hr & _)]]; [congruence |].
    rewrite Hr, <- Hid, upsert_ids.
    destruct (in_dec Z.eq_dec (id r) (map id (results st))) as [Hin | _];
      [exact Hin |].
    apply in_or_app. right. now left.
  - exact (IH st1 chat1 st' chat2 tr2 E2 d Hd Hs).
Qed.

(** X12: once a run without a cursor has ended normally with some results,
    a run of the same documents on those results with [continue_last] does
    nothing: after the start of the session it returns them, with no request
    and no save. *)
Theorem rerun_with_continue_last_is_idle documents schema stored headless
    chat final chat1 tr1 headless' continue_at' chat2 :
  run ask json_loads documents schema stored headless None false chat
  = (Ret final, chat1, tr1) ->
  final <> [] ->
  run ask json_loads documents schema final headless' continue_at' true chat2
  = (Ret final, chat2, prelude headless').
Proof.
  intros Hrun Hne.
  destruct (py_max (nodup Z.eq_dec (map id final))) as [m |] eqn:Em;
    [| apply py_max_none in Em; contradiction].
  rewrite (run_continue_last Chat ask JSON json_loads _ _ _ _ _ _ m Em).
  rewrite run_explicit.
  rewrite (run_documents_all_skipped schema (Some (m + 1)%Z) documents);
    [cbn [after_events results]; rewrite app_nil_r; reflexivity |].
  rewrite run_explicit in Hrun.
  destruct (run_documents ask json_loads schema None (mkLoop true stored)
              documents chat) as [[[st | e |] c] t] eqn:E;
    cbn [after_events] in Hrun; try discriminate Hrun.
  injection Hrun as <- _ _.
  apply forallb_forall. intros d Hd.
  unfold is_skipped.
  destruct (doc_text d =? "")%string eqn:Et; [reflexivity |].
  cbn [orb]. apply Z.ltb_lt.
  assert (Hin : In (doc_id d) (map id (results st))).
  { apply (run_documents_covers _ _ _ _ _ _ _ _ E d Hd).
    unfold is_skipped. rewrite Et. reflexivity. }
  destruct (py_max_spec _ _ Em) as [_ Hmax].
  assert ((doc_id d <= m)%Z); [| lia].
  apply Hmax, nodup_In. exact Hin.
Qed.

End StoreOfARun.

(** ** The single fence *)

(** X13: when the accepted reply has one fence only, [data] is the parse
    of all the text after that fence. *)
Theorem parse_data_single_fence (JSON : Type)
    (json_loads : string -> option JSON) (reply : string) (i : nat) :
  PyStr.find fence reply = Some i ->
  PyStr.find fence (PyStr.drop (i + String.length fence) reply) = None ->
  parse_data json_loads (Some reply)
  = json_loads (PyStr.drop (i + String.length fence) reply).
Proof.
  intros Hi Hn. unfold parse_data.
  rewrite (PySplitFacts.split_find_some fence fence_not_empty reply i Hi).
  rewrite (PySplitFacts.split_find_none fence _ Hn). reflexivity.
Qed.

Lemma parse_data_single_fence_witness :
  parse_data sample_json_loads (Some cut_reply)
  = sample_json_loads ("{" ++ dquote ++ "a" ++ dquote ++ ": [1, 2").
Proof.
  apply (parse_data_single_fence _ sample_json_loads cut_reply 0);
    vm_compute; reflexivity.
Defined.

(** ** The lines of the input file *)

Lemma readlines_cons (c : ascii) (s : string) :
  readlines (String c s)
  = if is_newline c then String c EmptyString :: readlines s
    else match readlines s with
         | [] => [String c EmptyString]
         | line :: lines => String c line :: lines
         end.
Proof. reflexivity. Qed.

Lemma is_newline_nl (c : ascii) :
  is_newline c = true -> String c EmptyString = nl.
Proof.
  unfold is_newline. intros H. apply Nat.eqb_eq in H.
  unfold nl. f_equal. apply code_inj. rewrite H. reflexivity.
Qed.

Lemma join_readlines (s : string) : join_lines (readlines s) = s.
Proof.
  induction s as [|c s IH]; [reflexivity |].
  rewrite readlines_cons.
  destruct (is_newline c).
  - cbn [join_lines fold_right String.append]. fold (join_lines (readlines s)).
    now rewrite IH.
  - destruct (readlines s) as [|line lines].
    + cbn in IH |- *. now rewrite <- IH.
    + cbn [join_lines fold_right String.append] in IH |- *. now rewrite IH.
Qed.

Lemma readlines_shape (s : string) :
  forall i line,
    nth_error (readlines s) i = Some line ->
    line_shape (S i =? length (readlines s)) line.
Proof.
  induction s as [|c s IH]; intros i line H; [destruct i; discriminate H |].
  rewrite readlines_cons in H |- *.
  destruct (is_newline c) eqn:Ec.
  - destruct i as [|i].
    + cbn in H. injection H as <-. exists "". split; [reflexivity |].
      left. apply is_newline_nl. exact Ec.
    + cbn [nth_error] in H. apply (IH i line H).
  - destruct (readlines s) as [|l ls] eqn:El.
    + destruct i as [|i]; [| destruct i; discriminate H].
      cbn in H. injection H as <-.
      exists (String c ""). split; [cbn; rewrite Ec; reflexivity |].
      right. repeat split; discriminate.
    + destruct i as [|i].
      * cbn in H. injection H as <-.
        destruct (IH 0 l eq_refl) as (body & Hb & Hl).
        exists (String c body).
        split; [cbn [all_chars]; rewrite Ec; exact Hb |].
        destruct Hl as [-> | (Hlast & Hne & ->)]; [left; reflexivity |].
        right. repeat split; [exact Hlast | discriminate].
      * cbn [nth_error] in H. apply (IH (S i) line H).
Qed.

Lemma readlines_not_empty (s : string) (line : string) :
  In line (readlines s) -> line <> "".
Proof.
  intros Hin. apply In_nth_error in Hin. destruct Hin as [i Hi].
  destruct (readlines_shape s i line Hi) as (body & _ & [-> | (_ & Hne & ->)]);
    [| exact Hne].
  destruct body; discriminate.
Qed.

Lemma enumerate_from_snd (A : Type) (l : list A) :
  forall i, map snd (enumerate_from i l) = l.
Proof.
  induction l as [|x l IH]; intros i; [reflexivity |].
  cbn [enumerate_from map snd]. now rewrite IH.
Qed.

Lemma enumerate_from_nth (A : Type) (l : list A) :
  forall i n p,
    nth_error (enumerate_from i l) n = Some p ->
    fst p = (i + Z.of_nat n)%Z /\ nth_error l n = Some (snd p).
Proof.
  induction l as [|x l IH]; intros i n p H; [destruct n; discriminate H |].
  destruct n as [|n].
  - cbn in H. injection H as <-. cbn. split; [lia | reflexivity].
  - cbn [enumerate_from nth_error] in H.
    destruct (IH (i + 1)%Z n p H) as [E1 E2].
    split; [rewrite E1; lia | exact E2].
Qed.

(** X14: in txt mode, for a file read as the text [content], the documents
    are the lines of that text in order: the id of each is its index from 0,
    the texts put together are the text of the file, each text is one line
    with its newline (the last line may lack it), and no text is empty, so
    the loop of [run] skips none of them as blank, an empty line included. *)
Theorem txt_documents_are_the_lines (json_load : string -> option json)
    (args : Args) (content : string) :
  input_type args = Some txt ->
  exists (raws : list RawDocument) (documents : list Document),
    parse_input_documents json_load args content = Loaded raws
    /\ map as_document raws = map Some documents
    /\ length documents = length (readlines content)
    /\ join_lines (map doc_text documents) = content
    /\ (forall i d,
           nth_error documents i = Some d ->
           doc_id d = Z.of_nat i
           /\ line_shape (S i =? length documents) (doc_text d)
           /\ doc_text d <> ""
           /\ is_skipped None d = false).
Proof.
  intros Ht. unfold parse_input_documents. rewrite Ht.
  set (pairs := enumerate (readlines content)).
  exists (map (fun p => mkRaw (JInt (fst p)) (JStr (snd p))) pairs),
         (map (fun p => mkDocument (fst p) (snd p)) pairs).
  assert (Etext : map doc_text (map (fun p => mkDocument (fst p) (snd p)) pairs)
                  = readlines content).
  { rewrite map_map. cbn [doc_text].
    apply (enumerate_from_snd string (readlines content) 0%Z). }
  assert (Elen : length (map (fun p => mkDocument (fst p) (snd p)) pairs)
                 = length (readlines content)).
  { transitivity (length (map snd pairs)); [now rewrite !length_map |].
    unfold pairs, enumerate. now rewrite enumerate_from_snd. }
  split; [reflexivity |].
  split; [rewrite !map_map; reflexivity |].
  split; [exact Elen |].
  split; [rewrite Etext; apply join_readlines |].
  intros i d Hd. rewrite Elen.
  rewrite nth_error_map in Hd.
  destruct (nth_error pairs i) as [p |] eqn:Ep; [| discriminate Hd].
  cbn in Hd. injection Hd as <-. cbn [doc_id doc_text].
  destruct (enumerate_from_nth string (readlines content) 0%Z i p Ep)
    as [E1 E2].
  pose proof (readlines_shape content i (snd p) E2) as Hshape.
  assert (Hne : snd p <> "")
    by (apply (readlines_not_empty content), (nth_error_In _ _ E2)).
  split; [rewrite E1; lia |].
  split; [exact Hshape |].
  split; [exact Hne |].
  unfold is_skipped. cbn [doc_text].
  destruct (String.eqb_spec (snd p) ""); [contradiction | reflexivity].
Qed.

Lemma txt_documents_are_the_lines_witness :
  exists raws,
    parse_input_documents (fun _ => None) (mkArgs (Some txt) None None)
      ("one" ++ nl ++ nl ++ "three") = Loaded raws
    /\ length raws = 3.
Proof.
  destruct (txt_documents_are_the_lines (fun _ => None)
              (mkArgs (Some txt) None None) ("one" ++ nl ++ nl ++ "three")
              eq_refl) as (raws & documents & H1 & H2 & H3 & _).
  exists raws. split; [exact H1 |].
  rewrite <- (length_map as_document), H2, length_map, H3. reflexivity.
Defined.

(** Three lines, the second one empty. *)
Example txt_three_lines :
  parse_input_documents (fun _ => None) (mkArgs (Some txt) None None)
    ("one" ++ nl ++ nl ++ "three")
  = Loaded [mkRaw (JInt 0) (JStr ("one" ++ nl)); mkRaw (JInt 1) (JStr nl);
            mkRaw (JInt 2) (JStr "three")].
Proof. reflexivity. Qed.

(** ** The JSON input *)

Lemma subscript_loaded (item : json) (key : string) (v : json) :
  subscript item key = Loaded v ->
  exists fields, item = JObj fields /\ dict_get key fields = Some v.
Proof.
  destruct item as [| b | z | f | t | items | fields]; try discriminate.
  cbn [subscript]. intros H. exists fields.
  destruct (dict_get key fields) as [v' |]; [| discriminate H].
  injection H as ->. auto.
Qed.

Lemma json_documents_loaded (kd ki : option string) (items : list json) :
  forall n documents,
    json_documents kd ki (enumerate_from n items) = Loaded documents ->
    length documents = length items
    /\ forall i item,
        nth_error items i = Some item ->
        exists fields d,
          item = JObj fields
          /\ nth_error documents i = Some d
          /\ dict_get (arg_text kd) fields = Some (raw_text d)
          /\ (if truthy ki
              then dict_get (arg_text ki) fields = Some (raw_id d)
              else raw_id d = JInt (n + Z.of_nat i)).
Proof.
  induction items as [|x items IH]; intros n documents H.
  - cbn in H. injection H as <-.
    split; [reflexivity | intros i item Hi; destruct i; discriminate Hi].
  - cbn [enumerate_from json_documents] in H.
    destruct (if truthy ki then subscript x (arg_text ki) else Loaded (JInt n))
      as [the_id | e] eqn:Eid; [| discriminate H].
    destruct (subscript x (arg_text kd)) as [the_text | e] eqn:Etext;
      [| discriminate H].
    destruct (json_documents kd ki (enumerate_from (n + 1)%Z items))
      as [ds | e] eqn:Erest; [| discriminate H].
    injection H as <-.
    destruct (IH (n + 1)%Z ds Erest) as [Hlen Hnth].
    split; [cbn [length]; now rewrite Hlen |].
    intros i item Hi. destruct i as [|i].
    + cbn in Hi. injection Hi as <-.
      destruct (subscript_loaded x _ _ Etext) as (fields & -> & Hget).
      exists fields, (mkRaw the_id the_text).
      split; [reflexivity | split; [reflexivity | split; [exact Hget |]]].
      cbn [raw_id]. destruct (truthy ki).
      * destruct (subscript_loaded _ _ _ Eid) as (fields' & Ef & Hget').
        injection Ef as <-. exact Hget'.
      * injection Eid as <-. f_equal. lia.
    + cbn [nth_error] in Hi.
      destruct (Hnth i item Hi) as (fields & d & E1 & E2 & E3 & E4).
      exists fields, d.
      split; [exact E1 | split; [exact E2 | split; [exact E3 |]]].
      destruct (truthy ki); [exact E4 |].
      rewrite E4. f_equal. lia.
Qed.

Lemma json_documents_outcome (kd ki : option string) (items : list json) :
  forall n,
    if forallb (loadable_item kd ki) items
    then exists documents,
        json_documents kd ki (enumerate_from n items) = Loaded documents
    else json_documents kd ki (enumerate_from n items) = LoadFails TypeError
         \/ exists key,
             json_documents kd ki (enumerate_from n items)
             = LoadFails (KeyError key)
             /\ (key = arg_text kd \/ (truthy ki = true /\ key = arg_text ki)).
Proof.
  induction items as [|x items IH]; intros n; [exists []; reflexivity |].
  cbn [forallb enumerate_from json_documents].
  specialize (IH (n + 1)%Z).
  destruct x as [| b | z | f | t | l | fields];
    try (cbn [loadable_item andb subscript];
         destruct (truthy ki); left; reflexivity).
  cbn [loadable_item subscript].
  destruct (truthy ki) eqn:Eki; cbn [negb orb].
  - destruct (dict_get (arg_text ki) fields) as [vi |].
    + destruct (dict_get (arg_text kd) fields) as [vt |].
      * cbn [andb]. destruct (forallb (loadable_item kd ki) items).
        -- destruct IH as [ds ->]. eexists. reflexivity.
        -- destruct IH as [-> | (key & -> & Hk)];
             [left; reflexivity | right; exists key; auto].
      * cbn [andb]. right. exists (arg_text kd). auto.
    + destruct (dict_get (arg_text kd) fields) as [vt |];
        cbn [andb]; right; exists (arg_text ki); auto.
  - destruct (dict_get (arg_text kd) fields) as [vt |].
    + cbn [andb]. destruct (forallb (loadable_item kd ki) items).
      * destruct IH as [ds ->]. eexists. reflexivity.
      * destruct IH as [-> | (key & -> & Hk)];
          [left; reflexivity | right; exists key; auto].
    + cbn [andb]. right. exists (arg_text kd). auto.
Qed.

(** X15: when the JSON input is loaded, it is an array whose elements all
    are objects, and the documents follow its elements one for one: the text
    of a document is the value under the document key, and its id is the
    value under the id key, or the index of the element when no id key is
    given. *)
Theorem json_documents_follow_the_items (json_load : string -> option json)
    (args : Args) (content : string) (documents : list RawDocument) :
  input_type args = Some json_input ->
  parse_input_documents json_load args content = Loaded documents ->
  exists items,
    json_load content = Some (JArr items)
    /\ length documents = length items
    /\ forall i item,
        nth_error items i = Some item ->
        exists fields d,
          item = JObj fields
          /\ nth_error documents i = Some d
          /\ dict_get (arg_text (keydoc args)) fields = Some (raw_text d)
          /\ (if truthy (keyid args)
              then dict_get (arg_text (keyid args)) fields = Some (raw_id d)
              else raw_id d = JInt (Z.of_nat i)).
Proof.
  intros Ht. unfold parse_input_documents. rewrite Ht.
  destruct (json_load content) as [input_json |]; [| discriminate].
  destruct (negb (truthy (keydoc args))); [discriminate |].
  destruct input_json as [| b | z | f | t | items | fields]; try discriminate.
  destruct items as [|first rest]; [discriminate |].
  destruct first as [| b | z | f | t | l | fields]; try discriminate.
  destruct (dict_get (arg_text (keydoc args)) fields); [| discriminate].
  intros H. exists (JObj fields :: rest).
  split; [reflexivity |].
  exact (json_documents_loaded _ _ _ 0%Z documents H).
Qed.

(** X16: the JSON input is loaded exactly when a document key is given,
    the input is an array that is not empty, and every element of it is an
    object holding the document key, and the id key when one is given. *)
Theorem json_input_loads_iff (json_load : string -> option json)
    (args : Args) (content : string) (input_json : json) :
  input_type args = Some json_input ->
  json_load content = Some input_json ->
  (exists documents,
      parse_input_documents json_load args content = Loaded documents)
  <-> (truthy (keydoc args) = true
       /\ exists items,
           input_json = JArr items /\ items <> []
           /\ forallb (loadable_item (keydoc args) (keyid args)) items = true).
Proof.
  intros Ht Hj. unfold parse_input_documents. rewrite Ht, Hj.
  destruct (truthy (keydoc args)) eqn:Ekd; cbn [negb].
  2:{ split; [intros [ds H]; discriminate H | intros [H _]; discriminate H]. }
  destruct input_json as [| b | z | f | t | items | fields];
    try (split; [intros [ds H]; discriminate H
                | intros [_ (items' & H & _)]; discriminate H]).
  destruct items as [|first rest].
  { split; [intros [ds H]; discriminate H
           | intros [_ (items' & H & Hne & _)]; injection H as <-;
             contradiction]. }
  pose proof (json_documents_outcome (keydoc args) (keyid args)
                (first :: rest) 0%Z) as Hout.
  fold (@enumerate json (first :: rest)) in Hout.
  destruct first as [| b | z | f | t | l | fields];
    try (split; [intros [ds H]; discriminate H
                | intros [_ (items' & H & _ & Hall)]; injection H as <-;
                  discriminate Hall]).
  destruct (dict_get (arg_text (keydoc args)) fields) as [v |] eqn:Eget.
  - destruct (forallb (loadable_item (keydoc args) (keyid args))
                (JObj fields :: rest)) eqn:Eall.
    + split; [| intros _; exact Hout].
      intros _. split; [reflexivity |].
      exists (JObj fields :: rest).
      split; [reflexivity | split; [discriminate | exact Eall]].
    + split.
      * intros [ds H]. destruct Hout as [Hout | (key & Hout & _)];
          rewrite Hout in H; discriminate H.
      * intros [_ (items' & H & _ & Hall)]. injection H as <-.
        rewrite Hall in Eall. discriminate Eall.
  - split; [intros [ds H]; discriminate H |].
    intros [_ (items' & H & _ & Hall)]. injection H as <-.
    cbn [forallb loadable_item] in Hall. rewrite Eget in Hall.
    discriminate Hall.
Qed.

(** X17: the loader asserts about the first element only.  With a document
    key given, an empty array ends in [IndexError]; and once the first
    element is an object with the document key, an element that is not an
    object, or lacks a key, ends the load in [TypeError] or in [KeyError] of
    that key, not in the [AssertionError] of the validation. *)
Theorem json_input_checks_the_first_item_only
    (json_load : string -> option json) (args : Args) (content : string) :
  input_type args = Some json_input ->
  truthy (keydoc args) = true ->
  (json_load content = Some (JArr []) ->
   parse_input_documents json_load args content = LoadFails IndexError)
  /\ (forall fields v rest,
         json_load content = Some (JArr (JObj fields :: rest)) ->
         dict_get (arg_text (keydoc args)) fields = Some v ->
         forallb (loadable_item (keydoc args) (keyid args))
           (JObj fields :: rest) = false ->
         parse_input_documents json_load args content = LoadFails TypeError
         \/ exists key,
             parse_input_documents json_load args content
             = LoadFails (KeyError key)
             /\ (key = arg_text (keydoc args)
                 \/ (truthy (keyid args) = true
                     /\ key = arg_text (keyid args)))).
Proof.
  intros Ht Hkd. unfold parse_input_documents. rewrite Ht, Hkd. cbn [negb].
  split.
  - intros ->. reflexivity.
  - intros fields v rest -> Hget Hall. rewrite Hget.
    pose proof (json_documents_outcome (keydoc args) (keyid args)
                  (JObj fields :: rest) 0%Z) as Hout.
    rewrite Hall in Hout. exact Hout.
Qed.

(** ** The further properties on sample inputs *)

Lemma rate_limited_reply_sleeps_then_aborts_witness :
  process_document scripted_ask sample_json_loads "S" None (mkLoop true [])
    (mkDocument 0 "first") [rate_limit_reply]
  = (Raise (BadStateException "Hour is over, restart!"), [],
     [EvAsk (build_prompt "first" "S"); EvSleep 3600%Z]).
Proof.
  pose proof (rate_limited_reply_sleeps_then_aborts (list string) scripted_ask
                _ sample_json_loads "S" None (mkLoop true [])
                (mkDocument 0 "first") [] [rate_limit_reply] []
                rate_limit_reply) as H.
  cbv zeta in H.
  destruct H as [H _].
  - reflexivity.
  - constructor.
  - simpl. tauto.
  - simpl. lia.
  - vm_compute. reflexivity.
  - vm_compute. reflexivity.
  - vm_compute. reflexivity.
  - exact H.
Defined.

Lemma timeout_leaves_the_run_witness :
  run_documents scripted_ask sample_json_loads "S" None (mkLoop true [])
    two_documents [degraded_reply]
  = (Raise TimeoutException, [],
     [EvAsk (build_prompt "first" "S"); EvSleep 120%Z;
      EvAsk (build_prompt "first" "S")]).
Proof.
  pose proof (timeout_leaves_the_run (list string) scripted_ask _
                sample_json_loads "S" None (mkLoop true [])
                (mkDocument 0 "first") [mkDocument 1 "second"]
                [degraded_reply] [degraded_reply]) as H.
  cbv zeta in H.
  destruct H as [_ H].
  - reflexivity.
  - repeat constructor.
  - simpl. tauto.
  - simpl. lia.
  - reflexivity.
  - exact H.
Defined.

(** Four degraded replies and then the rate limit: the 4800 seconds of the
    bound are reached; six degraded replies: so are the six requests. *)
Example effort_bounds_reached :
  slept (snd (scrape_via_prompt (JSON:=unit) scripted_ask "doc" "S"
                (repeat degraded_reply 4 ++ [rate_limit_reply])%list))
  = 4800%Z
  /\ length (asked (snd (scrape_via_prompt (JSON:=unit) scripted_ask "doc" "S"
                           (repeat degraded_reply 6))))
     = 6.
Proof. split; vm_compute; reflexivity. Qed.

Lemma run_returns_what_it_saved_witness :
  last_saved [] two_trace = two_results.
Proof.
  apply (run_returns_what_it_saved (list string) scripted_ask _
           sample_json_loads two_documents "S" [] true None false
           [fenced_reply; fenced_reply] two_results [] two_trace).
  vm_compute. reflexivity.
Defined.

Lemma blank_documents_cost_nothing_witness :
  run scripted_ask sample_json_loads
    [mkDocument 0 ""; mkDocument 1 "second"] "S" [] true None false
    [fenced_reply]
  = (Ret (skipn 1 two_results), [],
     [EvSleep 5%Z; EvReload; EvAsk (build_prompt "second" "S");
      EvSave (skipn 1 two_results)]).
Proof.
  destruct (blank_documents_cost_nothing (list string) scripted_ask _
              sample_json_loads "S" [] true [fenced_reply]) as [_ H].
  destruct (H [mkDocument 0 ""] (mkDocument 1 "second") []) as [Hrun _].
  - constructor; [reflexivity | constructor].
  - discriminate.
  - cbn [app] in Hrun. rewrite Hrun. vm_compute. reflexivity.
Defined.

Lemma rerun_with_continue_last_is_idle_witness :
  run scripted_ask sample_json_loads two_documents "S" two_results true None
    true [fenced_reply]
  = (Ret two_results, [fenced_reply], prelude true).
Proof.
  apply (rerun_with_continue_last_is_idle (list string) scripted_ask _
           sample_json_loads two_documents "S" [] true
           [fenced_reply; fenced_reply] two_results [] two_trace true None
           [fenced_reply]).
  - vm_compute. reflexivity.
  - discriminate.
Defined.

Lemma json_documents_follow_the_items_witness :
  exists items,
    sample_json_load "pages" = Some (JArr items) /\ length items = 2.
Proof.
  destruct (json_documents_follow_the_items sample_json_load json_args "pages"
              [mkRaw (JInt 7) (JStr "first"); mkRaw (JInt 9) (JStr "second")]
              eq_refl eq_refl) as (items & H1 & H2 & _).
  exists items. split; [exact H1 | rewrite <- H2; reflexivity].
Defined.

Lemma json_input_loads_iff_witness :
  exists documents,
    parse_input_documents sample_json_load json_args "pages"
    = Loaded documents.
Proof.
  apply (json_input_loads_iff sample_json_load json_args "pages" _ eq_refl
           eq_refl).
  split; [reflexivity |].
  eexists. split; [reflexivity | split; [discriminate | reflexivity]].
Defined.

Lemma json_input_checks_the_first_item_only_witness :
  parse_input_documents sample_json_load json_args "empty"
  = LoadFails IndexError.
Proof.
  apply (json_input_checks_the_first_item_only sample_json_load json_args
           "empty" eq_refl eq_refl).
  reflexivity.
Defined.

(** The pages loaded, and the array whose second element is a string. *)
Example json_pages_loaded :
  parse_input_documents sample_json_load json_args "pages"
  = Loaded [mkRaw (JInt 7) (JStr "first"); mkRaw (JInt 9) (JStr "second")]
  /\ parse_input_documents sample_json_load
       (mkArgs (Some json_input) (Some "body") None) "ragged"
     = LoadFails TypeError.
Proof. split; reflexivity. Qed.

